(** * The Pyroscope query client of the Grafana datasource

    A shallow embedding of
    [pkg/tsdb/grafana-pyroscope-datasource/pyroscopeClient.go] and the
    properties of its five operations.

    Conventions of the embedding:
    - a Go [string] is a sequence of bytes: Rocq's [string];
    - [int64] is [Z] (no arithmetic is performed on it), [float64] is a
      primitive float (only copied);
    - a nilable pointer [*T] is [ptr T = option T] and a slice is
      [slice T = option (list T)]: the nil slice is [None], which Go keeps
      distinct from an allocated slice of length zero;
    - a Go function either returns its tuple of results or panics with a
      run-time error: [outcome];
    - the [context.Context] argument is left out: a cancelled or expired
      context shows as an error returned by the remote call. *)

From Stdlib Require Import ZArith Floats Ascii String.
From stdpp Require Import base option list strings.

Local Open Scope string_scope.
Local Open Scope list_scope.

(** ** The fragment of the Go run time the client relies on *)

Module golang.

Inductive runtime_error : Type :=
| index_out_of_range (i : nat) (len : nat).

Inductive outcome (A : Type) : Type :=
| Return (a : A)
| Panic (e : runtime_error).
Arguments Return {A} a.
Arguments Panic {A} e.

#[export] Instance outcome_bind : MBind outcome := λ A B k m,
  match m with
  | Return a => k a
  | Panic e => Panic e
  end.

Definition int64 : Type := Z.
Definition float64 : Type := PrimFloat.float.

Definition ptr (A : Type) : Type := option A.
Definition slice (A : Type) : Type := option (list A).

(** The elements of a slice, the nil slice having none. *)
Definition elems {A : Type} (s : slice A) : list A := default [] s.

Definition len {A : Type} (s : slice A) : nat := length (elems s).

(** [make([]*T, n)]: an allocated slice of [n] nil pointers. *)
Definition make {A : Type} (n : nat) : slice (ptr A) := Some (replicate n None).

(** [append(s, x)]; appending to the nil slice allocates. *)
Definition append {A : Type} (s : slice A) (x : A) : slice A :=
  Some (elems s ++ [x]).

(** [s[i]] as an expression. *)
Definition index {A : Type} (s : slice A) (i : nat) : outcome A :=
  match elems s !! i with
  | Some x => Return x
  | None => Panic (index_out_of_range i (len s))
  end.

(** [s[i] = x] as a statement. *)
Definition store {A : Type} (s : slice A) (i : nat) (x : A) : outcome (slice A) :=
  if decide (i < len s)
  then Return (Some (<[i:=x]> (elems s)))
  else Panic (index_out_of_range i (len s)).

(** [for i, x := range xs { body }] over a loop state [S]. *)
Fixpoint for_range_from {A S : Type} (i : nat) (xs : list A)
    (body : nat → A → S → outcome S) (s : S) : outcome S :=
  match xs with
  | [] => Return s
  | x :: xs' =>
      s' ← body i x s; for_range_from (Datatypes.S i) xs' body s'
  end.

Definition for_range {A S : Type} (xs : slice A)
    (body : nat → A → S → outcome S) (s : S) : outcome S :=
  for_range_from 0 (elems xs) body s.

(** The [error] interface: nil is [None : option error]. Two kinds of
    values occur: those produced by the remote call and the
    [*errors.errorString] built by [fmt.Errorf] without [%w]. *)
Inductive error : Type :=
| remote (text : string)
| errorString (text : string).

(** The [Error()] method, which [%v] prints. *)
Definition Error (e : error) : string :=
  match e with
  | remote t => t
  | errorString t => t
  end.

(** [strings.Split(s, sep)] for a separator of one byte. The result is
    never nil and never empty. *)
Fixpoint split_byte (sep : Ascii.ascii) (s : string) : list string :=
  match s with
  | EmptyString => [EmptyString]
  | String c s' =>
      if Ascii.eqb c sep then EmptyString :: split_byte sep s'
      else match split_byte sep s' with
           | h :: t => String c h :: t
           | [] => [String c EmptyString]
           end
  end.

Definition strings_Split (s : string) (sep : Ascii.ascii) : slice string :=
  Some (split_byte sep s).

(** [strings.HasPrefix(s, prefix)]. *)
Definition strings_HasPrefix (s prefix : string) : bool := String.prefix prefix s.

End golang.

Export golang.


(** ** The remote querier service *)

(** Modelled from the spec: the generated messages of the phlare API
    (package [querierv1]) are an external dependency of the package and not
    part of its sources. Their shapes follow the table of the remote
    service contract and the fields the client reads and writes. A repeated
    message field decodes to a slice of non-nil messages, so its elements
    are the messages themselves; an empty repeated field decodes to the nil
    slice; the optional flamegraph is a nilable pointer. *)
Module querierv1.

Module ProfileType.
Record t : Type := mk { ID : string; Name : string; SampleType : string }.
End ProfileType.

Module LabelPair.
Record t : Type := mk { Name : string; Value : string }.
End LabelPair.

Module Point.
Record t : Type := mk { Value : float64; Timestamp : int64 }.
End Point.

Module Series.
Record t : Type := mk { Labels : slice LabelPair.t; Points : slice Point.t }.
End Series.

Module Level.
Record t : Type := mk { Values : slice int64 }.
End Level.

Module FlameGraph.
Record t : Type := mk {
  Names : slice string;
  Levels : slice Level.t;
  Total : int64;
  MaxSelf : int64 }.
End FlameGraph.

Module ProfileTypesRequest.
Record t : Type := mk { }.
End ProfileTypesRequest.

Module ProfileTypesResponse.
Record t : Type := mk { ProfileTypes : slice ProfileType.t }.
End ProfileTypesResponse.

Module SelectSeriesRequest.
Record t : Type := mk {
  ProfileTypeID : string;
  LabelSelector : string;
  Start : int64;
  End_ : int64;
  Step : float64;
  GroupBy : slice string }.
End SelectSeriesRequest.

Module SelectSeriesResponse.
Record t : Type := mk { Series : slice Series.t }.
End SelectSeriesResponse.

Module SelectMergeStacktracesRequest.
Record t : Type := mk {
  ProfileTypeID : string;
  LabelSelector : string;
  Start : int64;
  End_ : int64;
  MaxNodes : ptr int64 }.
End SelectMergeStacktracesRequest.

Module SelectMergeStacktracesResponse.
Record t : Type := mk { Flamegraph : ptr FlameGraph.t }.
End SelectMergeStacktracesResponse.

Module LabelNamesRequest.
Record t : Type := mk { }.
End LabelNamesRequest.

Module LabelNamesResponse.
Record t : Type := mk { Names : slice string }.
End LabelNamesResponse.

Module LabelValuesRequest.
Record t : Type := mk { Name : string }.
End LabelValuesRequest.

Module LabelValuesResponse.
Record t : Type := mk { Names : slice string }.
End LabelValuesResponse.

End querierv1.

Module connect.

(** Modelled from the spec: the result of one request/response round trip
    of the transport, [res, err := ...]: either a response carrying
    [res.Msg] or a non-nil [err]. *)
Inductive reply (A : Type) : Type :=
| ok (Msg : A)
| failed (err : error).
Arguments ok {A} Msg.
Arguments failed {A} err.

End connect.

Export connect.

Module querierv1connect.
Import querierv1.

(** Modelled from the spec: the generated interface
    [querierv1connect.QuerierServiceClient], restricted to the five calls
    the client uses. *)
Record QuerierServiceClient : Type := {
  ProfileTypes : ProfileTypesRequest.t → reply ProfileTypesResponse.t;
  SelectSeries : SelectSeriesRequest.t → reply SelectSeriesResponse.t;
  SelectMergeStacktraces :
    SelectMergeStacktracesRequest.t → reply SelectMergeStacktracesResponse.t;
  LabelNames : LabelNamesRequest.t → reply LabelNamesResponse.t;
  LabelValues : LabelValuesRequest.t → reply LabelValuesResponse.t }.

End querierv1connect.

(** ** The normalized data model of the package *)

Module ProfileType.
Record t : Type := mk { ID : string; Label : string }.
End ProfileType.

Module Level.
Record t : Type := mk { Values : slice int64 }.
End Level.

Module Flamebearer.
Record t : Type := mk {
  Names : slice string;
  Levels : slice (ptr Level.t);
  Total : int64;
  MaxSelf : int64 }.
End Flamebearer.

Module LabelPair.
Record t : Type := mk { Name : string; Value : string }.
End LabelPair.

Module Point.
(** [Timestamp] is a Unix time in milliseconds. *)
Record t : Type := mk { Value : float64; Timestamp : int64 }.
End Point.

Module Series.
Record t : Type := mk {
  Labels : slice (ptr LabelPair.t);
  Points : slice (ptr Point.t) }.
End Series.

Module ProfileResponse.
Record t : Type := mk { Flamebearer : ptr Flamebearer.t; Units : string }.
End ProfileResponse.

Module SeriesResponse.
Record t : Type := mk {
  Series : slice (ptr Series.t);
  Units : string;
  Label : string }.
End SeriesResponse.

Record PyroscopeClient : Type := {
  connectClient : querierv1connect.QuerierServiceClient }.

(** ** The operations of the client

    Each function returns the Go pair (result, error) inside [outcome];
    the nil result is [None], the nil error is [None]. *)

Definition ProfileTypes (c : PyroscopeClient)
    : outcome (slice (ptr ProfileType.t) * option error) :=
  match querierv1connect.ProfileTypes (connectClient c)
          querierv1.ProfileTypesRequest.mk with
  | failed err => Return (None, Some err)
  | ok Msg =>
      match querierv1.ProfileTypesResponse.ProfileTypes Msg with
      | None =>
          (* at least an empty array when there are no types *)
          Return (Some [], None)
      | Some _ =>
          pTypes ← for_range (querierv1.ProfileTypesResponse.ProfileTypes Msg)
            (λ i pType pTypes,
               store pTypes i (Some {|
                 ProfileType.ID := querierv1.ProfileType.ID pType;
                 ProfileType.Label :=
                   querierv1.ProfileType.Name pType +:+ " - "
                     +:+ querierv1.ProfileType.SampleType pType |}))
            (make (len (querierv1.ProfileTypesResponse.ProfileTypes Msg)));
          Return (pTypes, None)
      end
  end.

Definition getUnits (profileTypeID : string) : outcome string :=
  let parts := strings_Split profileTypeID ":"%char in
  unit ← index parts 2;
  if String.eqb unit "nanoseconds" then Return "ns"
  else if String.eqb unit "count" then Return "short"
  else Return unit.

Definition GetSeries (c : PyroscopeClient) (profileTypeID labelSelector : string)
    (start end_ : int64) (groupBy : slice string) (step : float64)
    : outcome (ptr SeriesResponse.t * option error) :=
  let req := {|
    querierv1.SelectSeriesRequest.ProfileTypeID := profileTypeID;
    querierv1.SelectSeriesRequest.LabelSelector := labelSelector;
    querierv1.SelectSeriesRequest.Start := start;
    querierv1.SelectSeriesRequest.End_ := end_;
    querierv1.SelectSeriesRequest.Step := step;
    querierv1.SelectSeriesRequest.GroupBy := groupBy |} in
  match querierv1connect.SelectSeries (connectClient c) req with
  | failed err => Return (None, Some err)
  | ok Msg =>
      series ← for_range (querierv1.SelectSeriesResponse.Series Msg)
        (λ i s series,
           labels ← for_range (querierv1.Series.Labels s)
             (λ i l labels,
                store labels i (Some {|
                  LabelPair.Name := querierv1.LabelPair.Name l;
                  LabelPair.Value := querierv1.LabelPair.Value l |}))
             (make (len (querierv1.Series.Labels s)));
           points ← for_range (querierv1.Series.Points s)
             (λ i p points,
                store points i (Some {|
                  Point.Value := querierv1.Point.Value p;
                  Point.Timestamp := querierv1.Point.Timestamp p |}))
             (make (len (querierv1.Series.Points s)));
           store series i (Some {|
             Series.Labels := labels;
             Series.Points := points |}))
        (make (len (querierv1.SelectSeriesResponse.Series Msg)));
      let parts := strings_Split profileTypeID ":"%char in
      (* the call of getUnits comes before the indexing of parts *)
      units ← getUnits profileTypeID;
      label ← index parts 1;
      Return (Some {|
        SeriesResponse.Series := series;
        SeriesResponse.Units := units;
        SeriesResponse.Label := label |}, None)
  end.

Definition GetProfile (c : PyroscopeClient) (profileTypeID labelSelector : string)
    (start end_ : int64) (maxNodes : ptr int64)
    : outcome (ptr ProfileResponse.t * option error) :=
  let req := {|
    querierv1.SelectMergeStacktracesRequest.ProfileTypeID := profileTypeID;
    querierv1.SelectMergeStacktracesRequest.LabelSelector := labelSelector;
    querierv1.SelectMergeStacktracesRequest.Start := start;
    querierv1.SelectMergeStacktracesRequest.End_ := end_;
    querierv1.SelectMergeStacktracesRequest.MaxNodes := maxNodes |} in
  match querierv1connect.SelectMergeStacktraces (connectClient c) req with
  | failed err => Return (None, Some err)
  | ok Msg =>
      match querierv1.SelectMergeStacktracesResponse.Flamegraph Msg with
      | None =>
          (* not an error: happens when querying data out of range *)
          Return (None, None)
      | Some Flamegraph =>
          levels ← for_range (querierv1.FlameGraph.Levels Flamegraph)
            (λ i level levels,
               store levels i (Some {|
                 Level.Values := querierv1.Level.Values level |}))
            (make (len (querierv1.FlameGraph.Levels Flamegraph)));
          units ← getUnits profileTypeID;
          Return (Some {|
            ProfileResponse.Flamebearer := Some {|
              Flamebearer.Names := querierv1.FlameGraph.Names Flamegraph;
              Flamebearer.Levels := levels;
              Flamebearer.Total := querierv1.FlameGraph.Total Flamegraph;
              Flamebearer.MaxSelf := querierv1.FlameGraph.MaxSelf Flamegraph |};
            ProfileResponse.Units := units |}, None)
      end
  end.

Definition isPrivateLabel (label : string) : bool :=
  strings_HasPrefix label "__".

Definition LabelNames (c : PyroscopeClient)
    : outcome (slice string * option error) :=
  match querierv1connect.LabelNames (connectClient c)
          querierv1.LabelNamesRequest.mk with
  | failed err =>
      Return (None,
              Some (errorString ("error seding LabelNames request " +:+ Error err)))
  | ok Msg =>
      filtered ← for_range (querierv1.LabelNamesResponse.Names Msg)
        (λ _ label (filtered : slice string),
           if negb (isPrivateLabel label)
           then Return (append filtered label)
           else Return filtered)
        None;
      Return (filtered, None)
  end.

Definition LabelValues (c : PyroscopeClient) (label : string)
    : outcome (slice string * option error) :=
  match querierv1connect.LabelValues (connectClient c)
          {| querierv1.LabelValuesRequest.Name := label |} with
  | failed err => Return (None, Some err)
  | ok Msg => Return (querierv1.LabelValuesResponse.Names Msg, None)
  end.

(** ** Reference images of the wire messages

    What the specification expects each wire message to become: the same
    fields, one normalized value per message, in the order received. The
    client is compared with these. *)

Definition image_of_ProfileType (p : querierv1.ProfileType.t) : ProfileType.t := {|
  ProfileType.ID := querierv1.ProfileType.ID p;
  ProfileType.Label :=
    querierv1.ProfileType.Name p +:+ " - " +:+ querierv1.ProfileType.SampleType p |}.

Definition image_of_LabelPair (l : querierv1.LabelPair.t) : LabelPair.t := {|
  LabelPair.Name := querierv1.LabelPair.Name l;
  LabelPair.Value := querierv1.LabelPair.Value l |}.

Definition image_of_Point (p : querierv1.Point.t) : Point.t := {|
  Point.Value := querierv1.Point.Value p;
  Point.Timestamp := querierv1.Point.Timestamp p |}.

(** An allocated slice holding one non-nil pointer per element of [xs]. *)
Definition images {A B : Type} (f : A → B) (xs : slice A) : slice (ptr B) :=
  Some ((λ x, Some (f x)) <$> elems xs).

Definition image_of_Series (s : querierv1.Series.t) : Series.t := {|
  Series.Labels := images image_of_LabelPair (querierv1.Series.Labels s);
  Series.Points := images image_of_Point (querierv1.Series.Points s) |}.

Definition image_of_Level (l : querierv1.Level.t) : Level.t := {|
  Level.Values := querierv1.Level.Values l |}.

(** The unit table of the specification: the Unit Normalizer. *)
Definition NormalizeUnit (token : string) : string :=
  if String.eqb token "nanoseconds" then "ns"
  else if String.eqb token "count" then "short"
  else token.

(** The requests the specification says are sent. *)
Definition series_request (profileTypeID labelSelector : string)
    (start end_ : int64) (groupBy : slice string) (step : float64)
    : querierv1.SelectSeriesRequest.t := {|
  querierv1.SelectSeriesRequest.ProfileTypeID := profileTypeID;
  querierv1.SelectSeriesRequest.LabelSelector := labelSelector;
  querierv1.SelectSeriesRequest.Start := start;
  querierv1.SelectSeriesRequest.End_ := end_;
  querierv1.SelectSeriesRequest.Step := step;
  querierv1.SelectSeriesRequest.GroupBy := groupBy |}.

Definition profile_request (profileTypeID labelSelector : string)
    (start end_ : int64) (maxNodes : ptr int64)
    : querierv1.SelectMergeStacktracesRequest.t := {|
  querierv1.SelectMergeStacktracesRequest.ProfileTypeID := profileTypeID;
  querierv1.SelectMergeStacktracesRequest.LabelSelector := labelSelector;
  querierv1.SelectMergeStacktracesRequest.Start := start;
  querierv1.SelectMergeStacktracesRequest.End_ := end_;
  querierv1.SelectMergeStacktracesRequest.MaxNodes := maxNodes |}.

(** The colon-delimited components of a profile-type identifier. *)
Definition components (profileTypeID : string) : list string :=
  elems (strings_Split profileTypeID ":"%char).

(** ** Remote services used as concrete instances *)

(** A service answering every call from fixed tables. *)
Definition table_service
    (types : slice querierv1.ProfileType.t)
    (series : slice querierv1.Series.t)
    (flamegraph : ptr querierv1.FlameGraph.t)
    (names values : slice string) : PyroscopeClient := {|
  connectClient := {|
    querierv1connect.ProfileTypes := λ _,
      ok (querierv1.ProfileTypesResponse.mk types);
    querierv1connect.SelectSeries := λ _,
      ok (querierv1.SelectSeriesResponse.mk series);
    querierv1connect.SelectMergeStacktraces := λ _,
      ok (querierv1.SelectMergeStacktracesResponse.mk flamegraph);
    querierv1connect.LabelNames := λ _,
      ok (querierv1.LabelNamesResponse.mk names);
    querierv1connect.LabelValues := λ _,
      ok (querierv1.LabelValuesResponse.mk values) |} |}.

(** A service failing every call with the same error. *)
Definition failing_service (err : error) : PyroscopeClient := {|
  connectClient := {|
    querierv1connect.ProfileTypes := λ _, failed err;
    querierv1connect.SelectSeries := λ _, failed err;
    querierv1connect.SelectMergeStacktraces := λ _, failed err;
    querierv1connect.LabelNames := λ _, failed err;
    querierv1connect.LabelValues := λ _, failed err |} |}.

Definition sample_types : slice querierv1.ProfileType.t :=
  Some [querierv1.ProfileType.mk "process_cpu:cpu:nanoseconds" "process_cpu" "cpu";
        querierv1.ProfileType.mk "memory:inuse_space:bytes" "memory" "inuse_space"].

Definition sample_series : slice querierv1.Series.t :=
  Some [querierv1.Series.mk
          (Some [querierv1.LabelPair.mk "job" "api";
                 querierv1.LabelPair.mk "instance" "a:9090"])
          (Some [querierv1.Point.mk 1.5%float 1000%Z;
                 querierv1.Point.mk 2.25%float 2000%Z]);
        querierv1.Series.mk None None].

Definition sample_flamegraph : querierv1.FlameGraph.t :=
  querierv1.FlameGraph.mk
    (Some ["total"; "main"; "work"])
    (Some [querierv1.Level.mk (Some [0; 10; 0; 0]%Z);
           querierv1.Level.mk (Some [0; 10; 3; 1; 0; 0; 7; 2]%Z);
           querierv1.Level.mk None])
    10%Z 7%Z.

Definition sample_names : slice string :=
  Some ["__name__"; "job"; "instance"; "__meta_x"].

Definition sample_service : PyroscopeClient :=
  table_service sample_types sample_series (Some sample_flamegraph)
    sample_names (Some ["api"; "worker"]).

(** The service of an empty store: every repeated field decodes to the nil
    slice and there is no flamegraph. *)
Definition empty_service : PyroscopeClient :=
  table_service None None None None None.

(** A store whose only label names are reserved ones. *)
Definition reserved_only_service : PyroscopeClient :=
  table_service None None None (Some ["__name__"; "__period_type__"]) None.


(** ** The constructor and measures on identifiers *)

(** [NewPyroscopeClient(httpClient, url)]. The constructor of the generated
    stub, [querierv1connect.NewQuerierServiceClient], is taken as a
    parameter, as is the type of the HTTP client. *)
Definition NewPyroscopeClient {Client : Type}
    (NewQuerierServiceClient :
       Client → string → querierv1connect.QuerierServiceClient)
    (httpClient : Client) (url : string) : PyroscopeClient := {|
  connectClient := NewQuerierServiceClient httpClient url |}.

(** The number of occurrences of the byte [b] in [s]. *)
Fixpoint count_byte (b : Ascii.ascii) (s : string) : nat :=
  match s with
  | EmptyString => 0
  | String c s' => (if Ascii.eqb c b then 1 else 0) + count_byte b s'
  end.

(** The number of colons of a profile-type identifier. *)
Definition colons (profileTypeID : string) : nat :=
  count_byte ":"%char profileTypeID.

(** ** Loops that fill a freshly made slice *)

Section fill_loops.
Context {A B : Type} (f : A → B).
Variable body : nat → A → slice (ptr B) → outcome (slice (ptr B)).
Hypothesis body_stores : ∀ i x s, body i x s = store s i (Some (f x)).

(** Invariant of the loop: the slots before [i] hold the images of the
    elements already visited, the others are still nil. *)
Lemma for_range_from_fill (xs : list A) (filled : list (ptr B)) :
  for_range_from (length filled) xs body
      (Some (filled ++ replicate (length xs) None))
  = Return (Some (filled ++ ((λ x, Some (f x)) <$> xs))).
Proof.
  revert filled. induction xs as [|x xs IH]; intros filled; simpl.
  - reflexivity.
  - rewrite body_stores. unfold store, len. simpl.
    rewrite decide_True by (rewrite length_app; simpl; lia).
    simpl.
    rewrite insert_app_r_alt by lia.
    rewrite Nat.sub_diag. simpl.
    specialize (IH (filled ++ [Some (f x)])).
    rewrite length_app in IH. simpl in IH.
    rewrite Nat.add_1_r in IH.
    rewrite <- !app_assoc in IH. simpl in IH.
    exact IH.
Qed.

Lemma for_range_fill (xs : slice A) :
  for_range xs body (make (len xs)) = Return (images f xs).
Proof.
  unfold for_range, make, len, images.
  exact (for_range_from_fill (elems xs) []).
Qed.
End fill_loops.

Lemma images_length {A B : Type} (f : A → B) (xs : slice A) :
  len (images f xs) = len xs.
Proof. unfold images, len. simpl. apply length_fmap. Qed.

Lemma images_lookup {A B : Type} (f : A → B) (xs : slice A) (i : nat) :
  elems (images f xs) !! i = (λ x, Some (f x)) <$> (elems xs !! i).
Proof. unfold images. simpl. apply list_lookup_fmap. Qed.

(** ** Identifiers and units *)

Lemma index_components (profileTypeID : string) (i : nat) :
  index (strings_Split profileTypeID ":"%char) i
  = match components profileTypeID !! i with
    | Some x => Return x
    | None => Panic (index_out_of_range i (length (components profileTypeID)))
    end.
Proof. reflexivity. Qed.

Lemma getUnits_token (profileTypeID token : string) :
  components profileTypeID !! 2 = Some token →
  getUnits profileTypeID = Return (NormalizeUnit token).
Proof.
  intros H. unfold getUnits. rewrite index_components, H. simpl.
  unfold NormalizeUnit.
  destruct (String.eqb token "nanoseconds"); [reflexivity|].
  destruct (String.eqb token "count"); reflexivity.
Qed.

Lemma getUnits_malformed (profileTypeID : string) :
  length (components profileTypeID) < 3 →
  getUnits profileTypeID
  = Panic (index_out_of_range 2 (length (components profileTypeID))).
Proof.
  intros H. unfold getUnits. rewrite index_components.
  rewrite (lookup_ge_None_2 (components profileTypeID) 2) by lia.
  reflexivity.
Qed.

Lemma NormalizeUnit_cases (token : string) :
  (token = "nanoseconds" ∧ NormalizeUnit token = "ns")
  ∨ (token = "count" ∧ NormalizeUnit token = "short")
  ∨ (token ≠ "nanoseconds" ∧ token ≠ "count" ∧ NormalizeUnit token = token).
Proof.
  unfold NormalizeUnit.
  destruct (String.eqb_spec token "nanoseconds") as [->|Hn]; [by left|].
  destruct (String.eqb_spec token "count") as [->|Hc]; [by right; left|].
  by right; right.
Qed.

Lemma NormalizeUnit_idempotent (token : string) :
  NormalizeUnit (NormalizeUnit token) = NormalizeUnit token.
Proof.
  destruct (NormalizeUnit_cases token) as [[-> _]|[[-> _]|(_ & _ & H)]];
    [reflexivity | reflexivity | by rewrite !H].
Qed.

Lemma components_at_least_three (profileTypeID : string) :
  (3 ≤ length (components profileTypeID))%nat →
  ∃ label token,
    components profileTypeID !! 1 = Some label
    ∧ components profileTypeID !! 2 = Some token.
Proof.
  intros H.
  destruct (lookup_lt_is_Some_2 (components profileTypeID) 1) as [label Hl]; [lia|].
  destruct (lookup_lt_is_Some_2 (components profileTypeID) 2) as [token Ht]; [lia|].
  by exists label, token.
Qed.

(** ** The operations after a successful round trip *)

Lemma ProfileTypes_ok (c : PyroscopeClient) (Msg : querierv1.ProfileTypesResponse.t) :
  querierv1connect.ProfileTypes (connectClient c) querierv1.ProfileTypesRequest.mk
    = ok Msg →
  ProfileTypes c
  = Return (images image_of_ProfileType
              (querierv1.ProfileTypesResponse.ProfileTypes Msg), None).
Proof.
  intros Hcall. unfold ProfileTypes. rewrite Hcall.
  destruct (querierv1.ProfileTypesResponse.ProfileTypes Msg) as [types|].
  - by rewrite (for_range_fill image_of_ProfileType _ (λ _ _ _, eq_refl)).
  - reflexivity.
Qed.

Lemma GetSeries_ok (c : PyroscopeClient) (profileTypeID labelSelector : string)
    (start end_ : int64) (groupBy : slice string) (step : float64)
    (Msg : querierv1.SelectSeriesResponse.t) :
  querierv1connect.SelectSeries (connectClient c)
    (series_request profileTypeID labelSelector start end_ groupBy step) = ok Msg →
  GetSeries c profileTypeID labelSelector start end_ groupBy step
  = (units ← getUnits profileTypeID;
     label ← index (strings_Split profileTypeID ":"%char) 1;
     Return (Some {|
       SeriesResponse.Series :=
         images image_of_Series (querierv1.SelectSeriesResponse.Series Msg);
       SeriesResponse.Units := units;
       SeriesResponse.Label := label |}, None)).
Proof.
  intros Hcall. unfold series_request in Hcall.
  unfold GetSeries. cbv zeta. rewrite Hcall.
  rewrite (for_range_fill image_of_Series); [reflexivity|].
  intros i s series.
  rewrite (for_range_fill image_of_LabelPair _ (λ _ _ _, eq_refl)).
  rewrite (for_range_fill image_of_Point _ (λ _ _ _, eq_refl)).
  reflexivity.
Qed.

Lemma GetSeries_failed (c : PyroscopeClient) (profileTypeID labelSelector : string)
    (start end_ : int64) (groupBy : slice string) (step : float64) (err : error) :
  querierv1connect.SelectSeries (connectClient c)
    (series_request profileTypeID labelSelector start end_ groupBy step) = failed err →
  GetSeries c profileTypeID labelSelector start end_ groupBy step
  = Return (None, Some err).
Proof.
  intros Hcall. unfold series_request in Hcall.
  unfold GetSeries. cbv zeta. by rewrite Hcall.
Qed.

Lemma GetProfile_ok (c : PyroscopeClient) (profileTypeID labelSelector : string)
    (start end_ : int64) (maxNodes : ptr int64)
    (Msg : querierv1.SelectMergeStacktracesResponse.t)
    (Flamegraph : querierv1.FlameGraph.t) :
  querierv1connect.SelectMergeStacktraces (connectClient c)
    (profile_request profileTypeID labelSelector start end_ maxNodes) = ok Msg →
  querierv1.SelectMergeStacktracesResponse.Flamegraph Msg = Some Flamegraph →
  GetProfile c profileTypeID labelSelector start end_ maxNodes
  = (units ← getUnits profileTypeID;
     Return (Some {|
       ProfileResponse.Flamebearer := Some {|
         Flamebearer.Names := querierv1.FlameGraph.Names Flamegraph;
         Flamebearer.Levels :=
           images image_of_Level (querierv1.FlameGraph.Levels Flamegraph);
         Flamebearer.Total := querierv1.FlameGraph.Total Flamegraph;
         Flamebearer.MaxSelf := querierv1.FlameGraph.MaxSelf Flamegraph |};
       ProfileResponse.Units := units |}, None)).
Proof.
  intros Hcall Hfg. unfold profile_request in Hcall.
  unfold GetProfile. cbv zeta. rewrite Hcall, Hfg.
  by rewrite (for_range_fill image_of_Level _ (λ _ _ _, eq_refl)).
Qed.

Lemma GetProfile_no_flamegraph (c : PyroscopeClient)
    (profileTypeID labelSelector : string) (start end_ : int64)
    (maxNodes : ptr int64) (Msg : querierv1.SelectMergeStacktracesResponse.t) :
  querierv1connect.SelectMergeStacktraces (connectClient c)
    (profile_request profileTypeID labelSelector start end_ maxNodes) = ok Msg →
  querierv1.SelectMergeStacktracesResponse.Flamegraph Msg = None →
  GetProfile c profileTypeID labelSelector start end_ maxNodes
  = Return (None, None).
Proof.
  intros Hcall Hfg. unfold profile_request in Hcall.
  unfold GetProfile. cbv zeta. by rewrite Hcall, Hfg.
Qed.

Lemma GetProfile_failed (c : PyroscopeClient)
    (profileTypeID labelSelector : string) (start end_ : int64)
    (maxNodes : ptr int64) (err : error) :
  querierv1connect.SelectMergeStacktraces (connectClient c)
    (profile_request profileTypeID labelSelector start end_ maxNodes) = failed err →
  GetProfile c profileTypeID labelSelector start end_ maxNodes
  = Return (None, Some err).
Proof.
  intros Hcall. unfold profile_request in Hcall.
  unfold GetProfile. cbv zeta. by rewrite Hcall.
Qed.

(** ** Filtering of label names *)

(** The loop of [LabelNames], started from any slice already collected. *)
Lemma filter_loop (names : list string) (i : nat) (filtered : slice string) :
  for_range_from i names
    (λ _ label (filtered : slice string),
       if negb (isPrivateLabel label)
       then Return (append filtered label)
       else Return filtered)
    filtered
  = Return
      (match List.filter (λ label, negb (isPrivateLabel label)) names with
       | [] => filtered
       | kept => Some (elems filtered ++ kept)
       end).
Proof.
  revert i filtered. induction names as [|label names IH]; intros i filtered.
  - reflexivity.
  - simpl. destruct (negb (isPrivateLabel label)); simpl; rewrite IH.
    + unfold append. simpl.
      destruct (List.filter _ names) as [|k kept].
      * reflexivity.
      * by rewrite <- app_assoc.
    + reflexivity.
Qed.

Lemma LabelNames_ok (c : PyroscopeClient) (Msg : querierv1.LabelNamesResponse.t) :
  querierv1connect.LabelNames (connectClient c) querierv1.LabelNamesRequest.mk
    = ok Msg →
  LabelNames c
  = Return
      (match List.filter (λ label, negb (isPrivateLabel label))
               (elems (querierv1.LabelNamesResponse.Names Msg)) with
       | [] => None
       | kept => Some kept
       end, None).
Proof.
  intros Hcall. unfold LabelNames. rewrite Hcall.
  unfold for_range. rewrite filter_loop. simpl.
  by destruct (List.filter _ _).
Qed.

Lemma isPrivateLabel_prefix (label : string) :
  isPrivateLabel label = true ↔ ∃ rest, label = "__" +:+ rest.
Proof.
  unfold isPrivateLabel, strings_HasPrefix.
  rewrite String.prefix_correct. split.
  - destruct label as [|a [|b rest]]; simpl; try discriminate.
    intros H. injection H as -> -> _. by exists rest.
  - intros [rest ->]. simpl. by destruct rest.
Qed.

Lemma GetSeries_malformed (c : PyroscopeClient) (profileTypeID labelSelector : string)
    (start end_ : int64) (groupBy : slice string) (step : float64)
    (Msg : querierv1.SelectSeriesResponse.t) :
  querierv1connect.SelectSeries (connectClient c)
    (series_request profileTypeID labelSelector start end_ groupBy step) = ok Msg →
  length (components profileTypeID) < 3 →
  GetSeries c profileTypeID labelSelector start end_ groupBy step
  = Panic (index_out_of_range 2 (length (components profileTypeID))).
Proof.
  intros Hcall Hshort.
  rewrite (GetSeries_ok _ _ _ _ _ _ _ _ Hcall).
  by rewrite getUnits_malformed.
Qed.

(** ** The claims *)

(** C1 (the code departs from the claim). The claim: for a profileTypeID
    with fewer than three colon-delimited components, such as
    "onlyonepart", GetSeries fails with an explicit InvalidIdentifier error
    instead of an out-of-range index access. The code: after a successful
    round trip, GetSeries on "onlyonepart" returns nothing and panics
    with the run-time error "index out of range [2] with length 1", raised
    by [parts[2]] in getUnits. *)
Theorem GetSeries_onlyonepart_index_fault :
  components "onlyonepart" = ["onlyonepart"]
  ∧ querierv1connect.SelectSeries (connectClient sample_service)
      (series_request "onlyonepart" "{}" 0%Z 3600000%Z None 15%float)
    = ok (querierv1.SelectSeriesResponse.mk sample_series)
  ∧ getUnits "onlyonepart" = Panic (index_out_of_range 2 1)
  ∧ GetSeries sample_service "onlyonepart" "{}" 0%Z 3600000%Z None 15%float
    = Panic (index_out_of_range 2 1).
Proof.
  split; [reflexivity|]. split; [reflexivity|].
  assert (Hunits : getUnits "onlyonepart" = Panic (index_out_of_range 2 1))
    by (apply getUnits_malformed; simpl; lia).
  split; [exact Hunits|].
  rewrite (GetSeries_ok sample_service "onlyonepart" "{}" 0%Z 3600000%Z None
             15%float _ eq_refl).
  by rewrite Hunits.
Qed.

(** C2. When the merged-stacktrace response carries no flamegraph,
    GetProfile returns the absent result together with no error; a
    transport error is returned as an error, with an absent result; the two
    outcomes differ. *)
Theorem GetProfile_NoData (c : PyroscopeClient)
    (profileTypeID labelSelector : string) (start end_ : int64)
    (maxNodes : ptr int64) :
  (∀ Msg,
     querierv1connect.SelectMergeStacktraces (connectClient c)
       (profile_request profileTypeID labelSelector start end_ maxNodes) = ok Msg →
     querierv1.SelectMergeStacktracesResponse.Flamegraph Msg = None →
     GetProfile c profileTypeID labelSelector start end_ maxNodes
     = Return (None, None))
  ∧ (∀ err,
       querierv1connect.SelectMergeStacktraces (connectClient c)
         (profile_request profileTypeID labelSelector start end_ maxNodes)
         = failed err →
       GetProfile c profileTypeID labelSelector start end_ maxNodes
       = Return (None, Some err))
  ∧ (∀ err : error,
       @Return (ptr ProfileResponse.t * option error) (None, None)
       ≠ Return (None, Some err)).
Proof.
  split; [|split].
  - intros Msg. apply GetProfile_no_flamegraph.
  - intros err. apply GetProfile_failed.
  - intros err H. discriminate H.
Qed.

Lemma GetProfile_NoData_witness :
  GetProfile empty_service "memory:inuse_space:bytes" "{}" 0%Z 3600000%Z (Some 64%Z)
  = Return (None, None)
  ∧ GetProfile (failing_service (remote "unavailable: connection refused"))
      "memory:inuse_space:bytes" "{}" 0%Z 3600000%Z (Some 64%Z)
    = Return (None, Some (remote "unavailable: connection refused")).
Proof.
  split.
  - exact (proj1 (GetProfile_NoData empty_service "memory:inuse_space:bytes"
                    "{}" 0%Z 3600000%Z (Some 64%Z)) _ eq_refl eq_refl).
  - exact (proj1 (proj2 (GetProfile_NoData
                    (failing_service (remote "unavailable: connection refused"))
                    "memory:inuse_space:bytes" "{}" 0%Z 3600000%Z (Some 64%Z)))
             _ eq_refl).
Defined.

(** C3. For a profileTypeID with at least three colon-delimited components
    and a successful round trip, GetSeries returns a SeriesResponse whose
    Series are the images of the upstream series, one per series and in
    the same order, each with its labels and points copied field for
    field; Label is the second component and Units the normalized third
    component. "process_cpu:cpu:nanoseconds" gives Label "cpu" and Units
    "ns"; "memory:inuse_space:bytes" gives Label "inuse_space" and Units
    "bytes". *)
Theorem GetSeries_response (c : PyroscopeClient) (labelSelector : string)
    (start end_ : int64) (groupBy : slice string) (step : float64) :
  (∀ profileTypeID Msg,
     querierv1connect.SelectSeries (connectClient c)
       (series_request profileTypeID labelSelector start end_ groupBy step)
       = ok Msg →
     (3 ≤ length (components profileTypeID))%nat →
     ∃ label token,
       components profileTypeID !! 1 = Some label
       ∧ components profileTypeID !! 2 = Some token
       ∧ GetSeries c profileTypeID labelSelector start end_ groupBy step
         = Return (Some {|
             SeriesResponse.Series :=
               Some ((λ s, Some {|
                  Series.Labels :=
                    Some ((λ l, Some {|
                       LabelPair.Name := querierv1.LabelPair.Name l;
                       LabelPair.Value := querierv1.LabelPair.Value l |})
                      <$> elems (querierv1.Series.Labels s));
                  Series.Points :=
                    Some ((λ p, Some {|
                       Point.Value := querierv1.Point.Value p;
                       Point.Timestamp := querierv1.Point.Timestamp p |})
                      <$> elems (querierv1.Series.Points s)) |})
                 <$> elems (querierv1.SelectSeriesResponse.Series Msg));
             SeriesResponse.Units := NormalizeUnit token;
             SeriesResponse.Label := label |}, None))
  ∧ (∀ Msg,
       querierv1connect.SelectSeries (connectClient c)
         (series_request "process_cpu:cpu:nanoseconds" labelSelector start end_
            groupBy step) = ok Msg →
       GetSeries c "process_cpu:cpu:nanoseconds" labelSelector start end_ groupBy step
       = Return (Some {|
           SeriesResponse.Series :=
             images image_of_Series (querierv1.SelectSeriesResponse.Series Msg);
           SeriesResponse.Units := "ns";
           SeriesResponse.Label := "cpu" |}, None))
  ∧ (∀ Msg,
       querierv1connect.SelectSeries (connectClient c)
         (series_request "memory:inuse_space:bytes" labelSelector start end_
            groupBy step) = ok Msg →
       GetSeries c "memory:inuse_space:bytes" labelSelector start end_ groupBy step
       = Return (Some {|
           SeriesResponse.Series :=
             images image_of_Series (querierv1.SelectSeriesResponse.Series Msg);
           SeriesResponse.Units := "bytes";
           SeriesResponse.Label := "inuse_space" |}, None)).
Proof.
  split; [|split].
  - intros profileTypeID Msg Hcall Hlen.
    destruct (components_at_least_three _ Hlen) as (label & token & Hl & Ht).
    exists label, token. split; [exact Hl|]. split; [exact Ht|].
    rewrite (GetSeries_ok _ _ _ _ _ _ _ _ Hcall).
    rewrite (getUnits_token _ _ Ht), index_components, Hl.
    reflexivity.
  - intros Msg Hcall. by rewrite (GetSeries_ok _ _ _ _ _ _ _ _ Hcall).
  - intros Msg Hcall. by rewrite (GetSeries_ok _ _ _ _ _ _ _ _ Hcall).
Qed.

Lemma GetSeries_response_witness :
  (3 ≤ length (components "process_cpu:cpu:nanoseconds"))%nat
  ∧ ∃ label token,
      components "process_cpu:cpu:nanoseconds" !! 1 = Some label
      ∧ components "process_cpu:cpu:nanoseconds" !! 2 = Some token
      ∧ GetSeries sample_service "process_cpu:cpu:nanoseconds" "{}" 0%Z 3600000%Z
          None 15%float
        = Return (Some {|
            SeriesResponse.Series := images image_of_Series sample_series;
            SeriesResponse.Units := NormalizeUnit token;
            SeriesResponse.Label := label |}, None).
Proof.
  split.
  - vm_compute. lia.
  - apply (proj1 (GetSeries_response sample_service "{}" 0%Z 3600000%Z None 15%float)
             "process_cpu:cpu:nanoseconds" _ eq_refl).
    vm_compute. lia.
Defined.

(** C4. The unit normalization applied by getUnits to the unit token of
    an identifier is a total function of that token: "nanoseconds" becomes
    "ns", "count" becomes "short", any other token (for example "bytes")
    is returned unchanged; hence normalizing twice is the same as
    normalizing once, also through getUnits: an identifier whose unit
    token is already normalized gets the same units. *)
Theorem getUnits_normalizes (profileTypeID token : string) :
  components profileTypeID !! 2 = Some token →
  getUnits profileTypeID = Return (NormalizeUnit token)
  ∧ (token = "nanoseconds" → getUnits profileTypeID = Return "ns")
  ∧ (token = "count" → getUnits profileTypeID = Return "short")
  ∧ (token ≠ "nanoseconds" → token ≠ "count" →
     getUnits profileTypeID = Return token)
  ∧ NormalizeUnit "nanoseconds" = "ns"
  ∧ NormalizeUnit "count" = "short"
  ∧ NormalizeUnit "bytes" = "bytes"
  ∧ NormalizeUnit (NormalizeUnit token) = NormalizeUnit token
  ∧ (∀ normalized,
       components normalized !! 2 = Some (NormalizeUnit token) →
       getUnits normalized = getUnits profileTypeID).
Proof.
  intros Htoken.
  pose proof (getUnits_token _ _ Htoken) as Hunits.
  split; [exact Hunits|].
  split; [by intros ->|].
  split; [by intros ->|].
  split.
  { intros Hn Hc. rewrite Hunits.
    destruct (NormalizeUnit_cases token) as [[? _]|[[? _]|(_ & _ & ->)]]; done. }
  split; [reflexivity|]. split; [reflexivity|]. split; [reflexivity|].
  split; [apply NormalizeUnit_idempotent|].
  intros normalized Hnorm.
  by rewrite (getUnits_token _ _ Hnorm), NormalizeUnit_idempotent.
Qed.

Lemma getUnits_normalizes_witness :
  components "process_cpu:samples:count" !! 2 = Some "count"
  ∧ getUnits "process_cpu:samples:count" = Return "short"
  ∧ getUnits "process_cpu:samples:short" = Return "short".
Proof.
  split; [reflexivity|].
  pose (H := getUnits_normalizes "process_cpu:samples:count" "count" eq_refl).
  split.
  - exact (proj1 H).
  - exact (eq_trans
             (proj2 (proj2 (proj2 (proj2 (proj2 (proj2 (proj2 (proj2 H)))))))
                "process_cpu:samples:short" eq_refl)
             (proj1 H)).
Defined.

(** C5. On every successful round trip ProfileTypes returns a present
    (non-nil) sequence with one entry per upstream entry, in the same
    order, empty when the upstream has no entry; each entry has the
    upstream ID and the Label Name + " - " + SampleType. *)
Theorem ProfileTypes_present (c : PyroscopeClient)
    (Msg : querierv1.ProfileTypesResponse.t) :
  querierv1connect.ProfileTypes (connectClient c) querierv1.ProfileTypesRequest.mk
    = ok Msg →
  ∃ pTypes : list (ptr ProfileType.t),
    ProfileTypes c = Return (Some pTypes, None)
    ∧ pTypes
      = (λ pType, Some {|
           ProfileType.ID := querierv1.ProfileType.ID pType;
           ProfileType.Label :=
             querierv1.ProfileType.Name pType +:+ " - "
               +:+ querierv1.ProfileType.SampleType pType |})
        <$> elems (querierv1.ProfileTypesResponse.ProfileTypes Msg)
    ∧ (len (querierv1.ProfileTypesResponse.ProfileTypes Msg) = 0 → pTypes = []).
Proof.
  intros Hcall. eexists. split; [exact (ProfileTypes_ok _ _ Hcall)|].
  split; [reflexivity|].
  unfold len. intros Hempty. apply length_zero_iff_nil in Hempty.
  by rewrite Hempty.
Qed.

Lemma ProfileTypes_present_witness :
  querierv1connect.ProfileTypes (connectClient sample_service)
    querierv1.ProfileTypesRequest.mk
    = ok (querierv1.ProfileTypesResponse.mk sample_types)
  ∧ ∃ pTypes : list (ptr ProfileType.t),
      ProfileTypes sample_service = Return (Some pTypes, None)
      ∧ pTypes
        = [Some (ProfileType.mk "process_cpu:cpu:nanoseconds" "process_cpu - cpu");
           Some (ProfileType.mk "memory:inuse_space:bytes" "memory - inuse_space")]
      ∧ (len sample_types = 0 → pTypes = []).
Proof.
  split; [reflexivity|].
  exact (ProfileTypes_present sample_service _ eq_refl).
Defined.

(** C6. For every upstream list of label names, LabelNames returns exactly
    the names without the double-underscore prefix, in their upstream
    order; upstream ["__name__", "job", "instance", "__meta_x"] gives
    ["job", "instance"]. *)
Theorem LabelNames_filters (c : PyroscopeClient)
    (Msg : querierv1.LabelNamesResponse.t) :
  querierv1connect.LabelNames (connectClient c) querierv1.LabelNamesRequest.mk
    = ok Msg →
  ∃ filtered : slice string,
    LabelNames c = Return (filtered, None)
    ∧ elems filtered
      = List.filter (λ label, negb (isPrivateLabel label))
          (elems (querierv1.LabelNamesResponse.Names Msg))
    ∧ (∀ label,
         label ∈ elems filtered
         ↔ label ∈ elems (querierv1.LabelNamesResponse.Names Msg)
           ∧ ¬ ∃ rest, label = "__" +:+ rest)
    ∧ (elems (querierv1.LabelNamesResponse.Names Msg)
         = ["__name__"; "job"; "instance"; "__meta_x"] →
       elems filtered = ["job"; "instance"]).
Proof.
  intros Hcall. eexists. split; [exact (LabelNames_ok _ _ Hcall)|].
  assert (Helems : ∀ kept : list string,
            elems (match kept with [] => None | a :: l => Some (a :: l) end) = kept)
    by (by intros []).
  rewrite Helems.
  split; [reflexivity|]. split.
  - intros label. rewrite !list_elem_of_In, List.filter_In.
    rewrite negb_true_iff, <- not_true_iff_false, isPrivateLabel_prefix.
    reflexivity.
  - by intros ->.
Qed.

Lemma LabelNames_filters_witness :
  querierv1connect.LabelNames (connectClient sample_service)
    querierv1.LabelNamesRequest.mk
    = ok (querierv1.LabelNamesResponse.mk sample_names)
  ∧ ∃ filtered : slice string,
      LabelNames sample_service = Return (filtered, None)
      ∧ elems filtered
        = List.filter (λ label, negb (isPrivateLabel label)) (elems sample_names)
      ∧ (∀ label,
           label ∈ elems filtered
           ↔ label ∈ elems sample_names ∧ ¬ ∃ rest, label = "__" +:+ rest)
      ∧ (elems sample_names = ["__name__"; "job"; "instance"; "__meta_x"] →
         elems filtered = ["job"; "instance"]).
Proof.
  split; [reflexivity|].
  exact (LabelNames_filters sample_service _ eq_refl).
Defined.

(** C7. For every label name, reserved ones such as "__name__" included,
    LabelValues returns the upstream value list as received, without any
    filtering. *)
Theorem LabelValues_verbatim (c : PyroscopeClient) (label : string)
    (Msg : querierv1.LabelValuesResponse.t) :
  querierv1connect.LabelValues (connectClient c)
    {| querierv1.LabelValuesRequest.Name := label |} = ok Msg →
  LabelValues c label
  = Return (querierv1.LabelValuesResponse.Names Msg, None).
Proof. intros Hcall. unfold LabelValues. by rewrite Hcall. Qed.

Lemma LabelValues_verbatim_witness :
  isPrivateLabel "__name__" = true
  ∧ querierv1connect.LabelValues (connectClient sample_service)
      {| querierv1.LabelValuesRequest.Name := "__name__" |}
    = ok (querierv1.LabelValuesResponse.mk (Some ["api"; "worker"]))
  ∧ LabelValues sample_service "__name__" = Return (Some ["api"; "worker"], None).
Proof.
  split; [reflexivity|]. split; [reflexivity|].
  exact (LabelValues_verbatim sample_service "__name__" _ eq_refl).
Defined.

(** C8. For a successful merged-stacktrace response carrying a flamegraph,
    GetProfile maps the Levels one to one and in order, the Values of each
    Level being the upstream sequence itself, and copies Names, Total and
    MaxSelf as received, nothing being recomputed: this Flamebearer is
    what the operation returns, next to the units of the identifier,
    and it does return for an identifier of at least three components. *)
Theorem GetProfile_flamebearer (c : PyroscopeClient)
    (profileTypeID labelSelector : string) (start end_ : int64)
    (maxNodes : ptr int64) (Msg : querierv1.SelectMergeStacktracesResponse.t)
    (Flamegraph : querierv1.FlameGraph.t) :
  querierv1connect.SelectMergeStacktraces (connectClient c)
    (profile_request profileTypeID labelSelector start end_ maxNodes) = ok Msg →
  querierv1.SelectMergeStacktracesResponse.Flamegraph Msg = Some Flamegraph →
  ∃ levels : list (ptr Level.t),
    levels
    = (λ level, Some {| Level.Values := querierv1.Level.Values level |})
      <$> elems (querierv1.FlameGraph.Levels Flamegraph)
    ∧ length levels = len (querierv1.FlameGraph.Levels Flamegraph)
    ∧ (∀ i level,
         elems (querierv1.FlameGraph.Levels Flamegraph) !! i = Some level →
         levels !! i
         = Some (Some {| Level.Values := querierv1.Level.Values level |}))
    ∧ GetProfile c profileTypeID labelSelector start end_ maxNodes
      = (units ← getUnits profileTypeID;
         Return (Some {|
           ProfileResponse.Flamebearer := Some {|
             Flamebearer.Names := querierv1.FlameGraph.Names Flamegraph;
             Flamebearer.Levels := Some levels;
             Flamebearer.Total := querierv1.FlameGraph.Total Flamegraph;
             Flamebearer.MaxSelf := querierv1.FlameGraph.MaxSelf Flamegraph |};
           ProfileResponse.Units := units |}, None))
    ∧ ((3 ≤ length (components profileTypeID))%nat →
       ∃ units,
         GetProfile c profileTypeID labelSelector start end_ maxNodes
         = Return (Some {|
             ProfileResponse.Flamebearer := Some {|
               Flamebearer.Names := querierv1.FlameGraph.Names Flamegraph;
               Flamebearer.Levels := Some levels;
               Flamebearer.Total := querierv1.FlameGraph.Total Flamegraph;
               Flamebearer.MaxSelf := querierv1.FlameGraph.MaxSelf Flamegraph |};
             ProfileResponse.Units := units |}, None)).
Proof.
  intros Hcall Hfg.
  eexists. split; [reflexivity|]. split; [apply length_fmap|]. split.
  { intros i level Hi. by rewrite list_lookup_fmap, Hi. }
  rewrite (GetProfile_ok _ _ _ _ _ _ _ _ Hcall Hfg).
  split; [reflexivity|].
  intros Hlen.
  destruct (components_at_least_three _ Hlen) as (label & token & _ & Ht).
  exists (NormalizeUnit token). by rewrite (getUnits_token _ _ Ht).
Qed.

Lemma GetProfile_flamebearer_witness :
  querierv1connect.SelectMergeStacktraces (connectClient sample_service)
    (profile_request "memory:inuse_space:bytes" "{}" 0%Z 3600000%Z None)
  = ok (querierv1.SelectMergeStacktracesResponse.mk (Some sample_flamegraph))
  ∧ GetProfile sample_service "memory:inuse_space:bytes" "{}" 0%Z 3600000%Z None
    = Return (Some {|
        ProfileResponse.Flamebearer := Some {|
          Flamebearer.Names := Some ["total"; "main"; "work"];
          Flamebearer.Levels :=
            Some [Some {| Level.Values := Some [0; 10; 0; 0]%Z |};
                  Some {| Level.Values := Some [0; 10; 3; 1; 0; 0; 7; 2]%Z |};
                  Some {| Level.Values := None |}];
          Flamebearer.Total := 10%Z;
          Flamebearer.MaxSelf := 7%Z |};
        ProfileResponse.Units := "bytes" |}, None).
Proof.
  split; [reflexivity|].
  destruct (GetProfile_flamebearer sample_service "memory:inuse_space:bytes" "{}"
              0%Z 3600000%Z None _ sample_flamegraph eq_refl eq_refl)
    as (levels & -> & _ & _ & -> & _).
  reflexivity.
Defined.

(** C9. For every profileTypeID on which GetSeries and GetProfile both
    succeed, whatever their other arguments, the Units of the
    SeriesResponse equal the Units of the ProfileResponse. *)
Theorem Units_agree (c : PyroscopeClient) (profileTypeID : string)
    (seriesSelector profileSelector : string)
    (seriesStart seriesEnd profileStart profileEnd : int64)
    (groupBy : slice string) (step : float64) (maxNodes : ptr int64)
    (series : SeriesResponse.t) (profile : ProfileResponse.t) :
  GetSeries c profileTypeID seriesSelector seriesStart seriesEnd groupBy step
    = Return (Some series, None) →
  GetProfile c profileTypeID profileSelector profileStart profileEnd maxNodes
    = Return (Some profile, None) →
  SeriesResponse.Units series = ProfileResponse.Units profile.
Proof.
  unfold GetSeries, GetProfile. cbv zeta.
  destruct (querierv1connect.SelectSeries _ _) as [SeriesMsg|]; [|discriminate].
  destruct (querierv1connect.SelectMergeStacktraces _ _) as [ProfileMsg|];
    [|discriminate].
  destruct (querierv1.SelectMergeStacktracesResponse.Flamegraph ProfileMsg);
    [|discriminate].
  destruct (for_range (querierv1.SelectSeriesResponse.Series SeriesMsg) _ _);
    [|discriminate].
  destruct (for_range (querierv1.FlameGraph.Levels _) _ _); [|discriminate].
  simpl.
  destruct (getUnits profileTypeID) as [units|]; [|discriminate].
  simpl.
  destruct (index _ 1); [|discriminate].
  simpl. intros [= <-] [= <-]. reflexivity.
Qed.

Lemma Units_agree_witness :
  ∃ series profile,
    GetSeries sample_service "process_cpu:cpu:nanoseconds" "{job=~api}"
      0%Z 3600000%Z (Some ["instance"]) 15%float = Return (Some series, None)
    ∧ GetProfile sample_service "process_cpu:cpu:nanoseconds" "{}"
        1000%Z 2000%Z (Some 64%Z) = Return (Some profile, None)
    ∧ SeriesResponse.Units series = "ns"
    ∧ SeriesResponse.Units series = ProfileResponse.Units profile.
Proof.
  eexists. eexists.
  split; [reflexivity|]. split; [reflexivity|]. split; [reflexivity|].
  exact (Units_agree sample_service "process_cpu:cpu:nanoseconds"
           "{job=~api}" "{}" 0%Z 3600000%Z 1000%Z 2000%Z (Some ["instance"])
           15%float (Some 64%Z) _ _ eq_refl eq_refl).
Defined.

(** C10, as stated, fails: GetProfile's NoData outcome is not the only
    case in which result and error are both absent. After a successful
    round trip LabelValues hands on the nil list of an upstream without
    values, and LabelNames returns its nil slice when no upstream name is
    kept; neither returns an error. *)
Lemma both_absent_outside_NoData :
  LabelValues empty_service "job" = Return (None, None)
  ∧ LabelNames reserved_only_service = Return (None, None)
  ∧ LabelNames empty_service = Return (None, None).
Proof. repeat split; reflexivity. Qed.

(** C10, amended. Whenever an operation of the client returns, result and
    error are never both present. When the round trip fails, the operation
    returns the error (wrapped by LabelNames) with an absent result. When
    it succeeds, every return carries no error; ProfileTypes and GetSeries
    then return a present result, and GetSeries and GetProfile do return
    when the identifier has three components. Result and error are both
    absent in exactly three cases: GetProfile without a flamegraph,
    LabelNames when no upstream name is kept, LabelValues when the upstream
    list is nil. *)
Theorem result_xor_error (c : PyroscopeClient)
    (profileTypeID labelSelector label : string) (start end_ : int64)
    (groupBy : slice string) (step : float64) (maxNodes : ptr int64) :
  match querierv1connect.ProfileTypes (connectClient c)
          querierv1.ProfileTypesRequest.mk with
  | failed err => ProfileTypes c = Return (None, Some err)
  | ok _ => ∃ pTypes, ProfileTypes c = Return (Some pTypes, None)
  end
  ∧ match querierv1connect.SelectSeries (connectClient c)
            (series_request profileTypeID labelSelector start end_ groupBy step) with
    | failed err =>
        GetSeries c profileTypeID labelSelector start end_ groupBy step
        = Return (None, Some err)
    | ok _ =>
        (∀ result err,
           GetSeries c profileTypeID labelSelector start end_ groupBy step
           = Return (result, err) →
           is_Some result ∧ err = None)
        ∧ ((3 ≤ length (components profileTypeID))%nat →
           ∃ series,
             GetSeries c profileTypeID labelSelector start end_ groupBy step
             = Return (Some series, None))
    end
  ∧ match querierv1connect.SelectMergeStacktraces (connectClient c)
            (profile_request profileTypeID labelSelector start end_ maxNodes) with
    | failed err =>
        GetProfile c profileTypeID labelSelector start end_ maxNodes
        = Return (None, Some err)
    | ok Msg =>
        (∀ result err,
           GetProfile c profileTypeID labelSelector start end_ maxNodes
           = Return (result, err) →
           err = None
           ∧ (result = None
              ↔ querierv1.SelectMergeStacktracesResponse.Flamegraph Msg = None))
        ∧ (querierv1.SelectMergeStacktracesResponse.Flamegraph Msg = None →
           GetProfile c profileTypeID labelSelector start end_ maxNodes
           = Return (None, None))
        ∧ ((3 ≤ length (components profileTypeID))%nat →
           is_Some (querierv1.SelectMergeStacktracesResponse.Flamegraph Msg) →
           ∃ profile,
             GetProfile c profileTypeID labelSelector start end_ maxNodes
             = Return (Some profile, None))
    end
  ∧ match querierv1connect.LabelNames (connectClient c)
            querierv1.LabelNamesRequest.mk with
    | failed err =>
        LabelNames c
        = Return (None, Some (errorString
                                ("error seding LabelNames request " +:+ Error err)))
    | ok Msg =>
        ∃ filtered,
          LabelNames c = Return (filtered, None)
          ∧ (filtered = None
             ↔ List.filter (λ name, negb (isPrivateLabel name))
                 (elems (querierv1.LabelNamesResponse.Names Msg)) = [])
    end
  ∧ match querierv1connect.LabelValues (connectClient c)
            {| querierv1.LabelValuesRequest.Name := label |} with
    | failed err => LabelValues c label = Return (None, Some err)
    | ok Msg =>
        LabelValues c label = Return (querierv1.LabelValuesResponse.Names Msg, None)
    end.
Proof.
  repeat apply conj.
  - destruct (querierv1connect.ProfileTypes _ _) as [Msg|err] eqn:Hcall.
    + eexists. exact (ProfileTypes_ok _ _ Hcall).
    + unfold ProfileTypes. by rewrite Hcall.
  - destruct (querierv1connect.SelectSeries _ _) as [Msg|err] eqn:Hcall.
    + rewrite (GetSeries_ok _ _ _ _ _ _ _ _ Hcall). split.
      * intros result err.
        destruct (getUnits profileTypeID); [|discriminate]. simpl.
        destruct (index _ 1); [|discriminate]. simpl.
        intros [= <- <-]. by split; [eexists|].
      * intros Hlen.
        destruct (components_at_least_three _ Hlen) as (lbl & token & Hl & Ht).
        rewrite (getUnits_token _ _ Ht), index_components, Hl. simpl.
        by eexists.
    + exact (GetSeries_failed _ _ _ _ _ _ _ _ Hcall).
  - destruct (querierv1connect.SelectMergeStacktraces _ _) as [Msg|err] eqn:Hcall.
    + destruct (querierv1.SelectMergeStacktracesResponse.Flamegraph Msg)
        as [Flamegraph|] eqn:Hfg.
      * rewrite (GetProfile_ok _ _ _ _ _ _ _ _ Hcall Hfg). repeat apply conj.
        -- intros result err.
           destruct (getUnits profileTypeID); [|discriminate]. simpl.
           intros [= <- <-]. split; [reflexivity|]. by split.
        -- discriminate.
        -- intros Hlen _.
           destruct (components_at_least_three _ Hlen) as (lbl & token & _ & Ht).
           rewrite (getUnits_token _ _ Ht). simpl. by eexists.
      * rewrite (GetProfile_no_flamegraph _ _ _ _ _ _ _ Hcall Hfg).
        repeat apply conj.
        -- by intros result err [= <- <-].
        -- reflexivity.
        -- by intros _ [? ?].
    + exact (GetProfile_failed _ _ _ _ _ _ _ Hcall).
  - destruct (querierv1connect.LabelNames _ _) as [Msg|err] eqn:Hcall.
    + eexists. split; [exact (LabelNames_ok _ _ Hcall)|].
      by destruct (List.filter _ _).
    + unfold LabelNames. by rewrite Hcall.
  - destruct (querierv1connect.LabelValues _ _) as [Msg|err] eqn:Hcall.
    + unfold LabelValues. by rewrite Hcall.
    + unfold LabelValues. by rewrite Hcall.
Qed.

Lemma result_xor_error_witness :
  LabelNames (failing_service (remote "deadline_exceeded: context deadline exceeded"))
  = Return (None,
            Some (errorString
                    "error seding LabelNames request deadline_exceeded: context deadline exceeded"))
  ∧ ∃ profile,
      GetProfile sample_service "process_cpu:cpu:nanoseconds" "{}" 0%Z 1000%Z None
      = Return (Some profile, None).
Proof.
  split.
  - exact (proj1 (proj2 (proj2 (proj2
             (result_xor_error
                (failing_service (remote "deadline_exceeded: context deadline exceeded"))
                "process_cpu:cpu:nanoseconds" "{}" "job" 0%Z 1000%Z None 15%float
                None))))).
  - apply (proj2 (proj2 (proj1 (proj2 (proj2
             (result_xor_error sample_service
                "process_cpu:cpu:nanoseconds" "{}" "job" 0%Z 1000%Z None 15%float
                None)))))).
    + vm_compute. lia.
    + by eexists.
Defined.

(** ** Further properties of the client *)

(** *** Splitting an identifier *)

Lemma split_byte_length (sep : Ascii.ascii) (s : string) :
  length (split_byte sep s) = S (count_byte sep s).
Proof.
  induction s as [|c s IH]; simpl; [reflexivity|].
  destruct (Ascii.eqb c sep); simpl.
  - by rewrite IH.
  - destruct (split_byte sep s) as [|h t]; [discriminate IH|exact IH].
Qed.

Lemma split_byte_app (sep : Ascii.ascii) (head rest : string) :
  count_byte sep head = 0 →
  split_byte sep (head +:+ String sep rest) = head :: split_byte sep rest.
Proof.
  induction head as [|c head IH]; simpl.
  - intros _. by rewrite Ascii.eqb_refl.
  - destruct (Ascii.eqb c sep); simpl; [discriminate|].
    intros Hfree. by rewrite (IH Hfree).
Qed.

Lemma split_byte_free (sep : Ascii.ascii) (s : string) :
  count_byte sep s = 0 → split_byte sep s = [s].
Proof.
  induction s as [|c s IH]; simpl; [reflexivity|].
  destruct (Ascii.eqb c sep); simpl; [discriminate|].
  intros Hfree. by rewrite (IH Hfree).
Qed.

Lemma split_byte_parts_free (sep : Ascii.ascii) (s part : string) :
  part ∈ split_byte sep s → count_byte sep part = 0.
Proof.
  revert part. induction s as [|c s IH]; simpl; intros part.
  - intros ->%list_elem_of_singleton. reflexivity.
  - destruct (Ascii.eqb c sep) eqn:Hc.
    + intros [->|Hin]%elem_of_cons; [reflexivity|by apply IH].
    + destruct (split_byte sep s) as [|h t].
      * intros ->%list_elem_of_singleton. simpl. by rewrite Hc.
      * intros [->|Hin]%elem_of_cons.
        -- simpl. rewrite Hc. simpl. apply IH. by left.
        -- apply IH. by right.
Qed.

Lemma components_length (profileTypeID : string) :
  length (components profileTypeID) = S (colons profileTypeID).
Proof. apply split_byte_length. Qed.

Lemma NormalizeUnit_free (token : string) :
  colons token = 0 → colons (NormalizeUnit token) = 0.
Proof.
  intros Hfree.
  destruct (NormalizeUnit_cases token) as [[_ ->]|[[_ ->]|(_ & _ & ->)]];
    [reflexivity|reflexivity|exact Hfree].
Qed.

Lemma NormalizeUnit_display (token : string) :
  NormalizeUnit token ≠ "nanoseconds" ∧ NormalizeUnit token ≠ "count".
Proof.
  destruct (NormalizeUnit_cases token) as [[_ ->]|[[_ ->]|(? & ? & ->)]];
    by split.
Qed.

Lemma split_colon (head rest : string) :
  colons head = 0 →
  split_byte ":" (head +:+ ":" +:+ rest) = head :: split_byte ":" rest.
Proof. exact (split_byte_app ":" head rest). Qed.

Lemma components_grammar (kind sample unit profileTypeID : string) :
  colons kind = 0 → colons sample = 0 → colons unit = 0 →
  profileTypeID = kind +:+ ":" +:+ sample +:+ ":" +:+ unit
  ∨ (∃ more, profileTypeID
             = kind +:+ ":" +:+ sample +:+ ":" +:+ unit +:+ ":" +:+ more) →
  components profileTypeID !! 1 = Some sample
  ∧ components profileTypeID !! 2 = Some unit.
Proof.
  intros Hkind Hsample Hunit [->|[more ->]]; unfold components; simpl;
    rewrite (split_colon _ _ Hkind), (split_colon _ _ Hsample).
  - by rewrite (split_byte_free _ _ Hunit).
  - by rewrite (split_colon _ _ Hunit).
Qed.

(** *** When the operations return and when they panic *)

Lemma getUnits_enough_colons (profileTypeID : string) :
  (2 ≤ colons profileTypeID)%nat →
  ∃ token,
    components profileTypeID !! 2 = Some token
    ∧ colons token = 0
    ∧ getUnits profileTypeID = Return (NormalizeUnit token).
Proof.
  intros Hcolons.
  destruct (components_at_least_three profileTypeID)
    as (label & token & _ & Ht); [rewrite components_length; lia|].
  exists token. split; [exact Ht|]. split; [|exact (getUnits_token _ _ Ht)].
  apply (split_byte_parts_free ":"%char profileTypeID).
  apply list_elem_of_lookup. by exists 2.
Qed.

Lemma getUnits_few_colons (profileTypeID : string) :
  colons profileTypeID < 2 →
  getUnits profileTypeID
  = Panic (index_out_of_range 2 (S (colons profileTypeID))).
Proof.
  intros Hcolons. rewrite <- components_length.
  apply getUnits_malformed. rewrite components_length. lia.
Qed.

(** X1. getUnits returns exactly for the identifiers with at least two
    colons: it then gives the normalized third component, which holds no
    colon; with fewer colons it panics on [parts[2]], the length reported
    being the number of colons plus one. *)
Theorem getUnits_two_colons (profileTypeID : string) :
  ((2 ≤ colons profileTypeID)%nat →
   ∃ token,
     components profileTypeID !! 2 = Some token
     ∧ colons token = 0
     ∧ getUnits profileTypeID = Return (NormalizeUnit token))
  ∧ (colons profileTypeID < 2 →
     getUnits profileTypeID
     = Panic (index_out_of_range 2 (S (colons profileTypeID)))).
Proof.
  split; [apply getUnits_enough_colons|apply getUnits_few_colons].
Qed.

Lemma getUnits_two_colons_witness :
  (2 ≤ colons "block:contentions:count:::")%nat
  ∧ colons "goroutine:goroutine" < 2
  ∧ (∃ token,
       components "block:contentions:count:::" !! 2 = Some token
       ∧ colons token = 0
       ∧ getUnits "block:contentions:count:::" = Return (NormalizeUnit token))
  ∧ getUnits "goroutine:goroutine" = Panic (index_out_of_range 2 2).
Proof.
  split; [vm_compute; lia|]. split; [vm_compute; lia|]. split.
  - apply (proj1 (getUnits_two_colons "block:contentions:count:::")).
    vm_compute. lia.
  - apply (proj2 (getUnits_two_colons "goroutine:goroutine")).
    vm_compute. lia.
Defined.

(** X2. GetSeries panics exactly when the round trip succeeded and the
    identifier has fewer than two colons, and then with the index fault of
    getUnits; a failed round trip is reported as an error whatever the
    identifier. *)
Theorem GetSeries_panics_iff (c : PyroscopeClient)
    (profileTypeID labelSelector : string) (start end_ : int64)
    (groupBy : slice string) (step : float64) (e : runtime_error) :
  GetSeries c profileTypeID labelSelector start end_ groupBy step = Panic e
  ↔ (∃ Msg,
       querierv1connect.SelectSeries (connectClient c)
         (series_request profileTypeID labelSelector start end_ groupBy step)
       = ok Msg)
    ∧ colons profileTypeID < 2
    ∧ e = index_out_of_range 2 (S (colons profileTypeID)).
Proof.
  destruct (querierv1connect.SelectSeries (connectClient c)
              (series_request profileTypeID labelSelector start end_ groupBy step))
    as [Msg|err] eqn:Hcall.
  - rewrite (GetSeries_ok _ _ _ _ _ _ _ _ Hcall).
    destruct (decide (colons profileTypeID < 2)) as [Hshort|Hlong].
    + rewrite (getUnits_few_colons profileTypeID Hshort). simpl. split.
      * intros [= <-]. split; [by exists Msg|]. by split.
      * by intros (_ & _ & ->).
    + destruct (components_at_least_three profileTypeID)
        as (label & token & Hl & Ht); [rewrite components_length; lia|].
      rewrite (getUnits_token _ _ Ht), index_components, Hl. simpl. split.
      * discriminate.
      * intros (_ & Hshort & _). by destruct Hlong.
  - rewrite (GetSeries_failed _ _ _ _ _ _ _ _ Hcall). split.
    + discriminate.
    + by intros ([Msg [=]] & _).
Qed.

Lemma GetSeries_panics_iff_witness :
  GetSeries sample_service "goroutine:goroutine" "{}" 0%Z 1000%Z None 15%float
  = Panic (index_out_of_range 2 2)
  ∧ ¬ GetSeries (failing_service (remote "unavailable")) "goroutine:goroutine"
        "{}" 0%Z 1000%Z None 15%float
      = Panic (index_out_of_range 2 2).
Proof.
  split.
  - apply (proj2 (GetSeries_panics_iff sample_service "goroutine:goroutine" "{}"
                    0%Z 1000%Z None 15%float (index_out_of_range 2 2))).
    split; [by eexists|]. split; [vm_compute; lia|reflexivity].
  - intros Hpanic.
    destruct (proj1 (GetSeries_panics_iff (failing_service (remote "unavailable"))
                       "goroutine:goroutine" "{}" 0%Z 1000%Z None 15%float
                       (index_out_of_range 2 2)) Hpanic)
      as ([Msg Hcall] & _).
    discriminate Hcall.
Defined.

(** X3. GetProfile panics exactly when the round trip succeeded, the
    response carries a flamegraph and the identifier has fewer than two
    colons: the absence of a flamegraph and a failed round trip are both
    decided before the identifier is looked at. *)
Theorem GetProfile_panics_iff (c : PyroscopeClient)
    (profileTypeID labelSelector : string) (start end_ : int64)
    (maxNodes : ptr int64) (e : runtime_error) :
  GetProfile c profileTypeID labelSelector start end_ maxNodes = Panic e
  ↔ (∃ Msg,
       querierv1connect.SelectMergeStacktraces (connectClient c)
         (profile_request profileTypeID labelSelector start end_ maxNodes)
       = ok Msg
       ∧ is_Some (querierv1.SelectMergeStacktracesResponse.Flamegraph Msg))
    ∧ colons profileTypeID < 2
    ∧ e = index_out_of_range 2 (S (colons profileTypeID)).
Proof.
  destruct (querierv1connect.SelectMergeStacktraces (connectClient c)
              (profile_request profileTypeID labelSelector start end_ maxNodes))
    as [Msg|err] eqn:Hcall.
  - destruct (querierv1.SelectMergeStacktracesResponse.Flamegraph Msg)
      as [Flamegraph|] eqn:Hfg.
    + rewrite (GetProfile_ok _ _ _ _ _ _ _ _ Hcall Hfg).
      destruct (decide (colons profileTypeID < 2)) as [Hshort|Hlong].
      * rewrite (getUnits_few_colons profileTypeID Hshort). simpl. split.
        -- intros [= <-]. split; [|by split].
           exists Msg. split; [reflexivity|]. rewrite Hfg. by eexists.
        -- by intros (_ & _ & ->).
      * destruct (components_at_least_three profileTypeID)
          as (label & token & _ & Ht); [rewrite components_length; lia|].
        rewrite (getUnits_token _ _ Ht). simpl. split.
        -- discriminate.
        -- intros (_ & Hshort & _). by destruct Hlong.
    + rewrite (GetProfile_no_flamegraph _ _ _ _ _ _ _ Hcall Hfg). split.
      * discriminate.
      * intros ((Msg' & [= <-] & Hsome) & _).
        rewrite Hfg in Hsome. by destruct Hsome.
  - rewrite (GetProfile_failed _ _ _ _ _ _ _ Hcall). split.
    + discriminate.
    + by intros ((Msg & [=] & _) & _).
Qed.

Lemma GetProfile_panics_iff_witness :
  GetProfile sample_service "onlyonepart" "{}" 0%Z 1000%Z None
  = Panic (index_out_of_range 2 1)
  ∧ ¬ GetProfile empty_service "onlyonepart" "{}" 0%Z 1000%Z None
      = Panic (index_out_of_range 2 1).
Proof.
  split.
  - apply (proj2 (GetProfile_panics_iff sample_service "onlyonepart" "{}"
                    0%Z 1000%Z None (index_out_of_range 2 1))).
    split; [|split; [vm_compute; lia|reflexivity]].
    eexists. split; [reflexivity|]. by eexists.
  - intros Hpanic.
    destruct (proj1 (GetProfile_panics_iff empty_service "onlyonepart" "{}"
                       0%Z 1000%Z None (index_out_of_range 2 1)) Hpanic)
      as ((Msg & Hcall & Hsome) & _).
    injection Hcall as <-. by destruct Hsome.
Defined.

(** X4. GetSeries and GetProfile fault on the same identifiers: for a
    service that answers both calls, the second with a flamegraph, one
    operation panics if and only if the other does, with the same run-time
    error. *)
Theorem GetSeries_GetProfile_same_panic (c : PyroscopeClient)
    (profileTypeID : string) (seriesSelector profileSelector : string)
    (seriesStart seriesEnd profileStart profileEnd : int64)
    (groupBy : slice string) (step : float64) (maxNodes : ptr int64)
    (SeriesMsg : querierv1.SelectSeriesResponse.t)
    (ProfileMsg : querierv1.SelectMergeStacktracesResponse.t)
    (e : runtime_error) :
  querierv1connect.SelectSeries (connectClient c)
    (series_request profileTypeID seriesSelector seriesStart seriesEnd groupBy step)
  = ok SeriesMsg →
  querierv1connect.SelectMergeStacktraces (connectClient c)
    (profile_request profileTypeID profileSelector profileStart profileEnd maxNodes)
  = ok ProfileMsg →
  is_Some (querierv1.SelectMergeStacktracesResponse.Flamegraph ProfileMsg) →
  GetSeries c profileTypeID seriesSelector seriesStart seriesEnd groupBy step
  = Panic e
  ↔ GetProfile c profileTypeID profileSelector profileStart profileEnd maxNodes
    = Panic e.
Proof.
  intros Hseries Hprofile [Flamegraph Hfg].
  rewrite (GetSeries_ok _ _ _ _ _ _ _ _ Hseries).
  rewrite (GetProfile_ok _ _ _ _ _ _ _ _ Hprofile Hfg).
  destruct (decide (colons profileTypeID < 2)) as [Hshort|Hlong].
  - rewrite (getUnits_few_colons profileTypeID Hshort). simpl.
    split; by intros [= <-].
  - destruct (components_at_least_three profileTypeID)
      as (label & token & Hl & Ht); [rewrite components_length; lia|].
    rewrite (getUnits_token _ _ Ht), index_components, Hl. simpl.
    split; discriminate.
Qed.

Lemma GetSeries_GetProfile_same_panic_witness :
  GetProfile sample_service "cpu" "{}" 0%Z 1000%Z None
  = Panic (index_out_of_range 2 1).
Proof.
  apply (proj1 (GetSeries_GetProfile_same_panic sample_service "cpu" "{}" "{}"
                  0%Z 1000%Z 0%Z 1000%Z None 15%float None _ _
                  (index_out_of_range 2 1) eq_refl eq_refl
                  (ex_intro _ sample_flamegraph eq_refl))).
  reflexivity.
Defined.

(** *** The grammar of identifiers *)

(** X5. For an identifier [kind:sample:unit], followed or not by further
    colon-separated components, where kind, sample and unit hold no colon,
    GetSeries after a successful round trip returns Label [sample] and
    Units the normalized [unit]: what follows the third component is
    ignored. *)
Theorem GetSeries_identifier_grammar (c : PyroscopeClient)
    (kind sample unit profileTypeID labelSelector : string) (start end_ : int64)
    (groupBy : slice string) (step : float64)
    (Msg : querierv1.SelectSeriesResponse.t) :
  colons kind = 0 → colons sample = 0 → colons unit = 0 →
  profileTypeID = kind +:+ ":" +:+ sample +:+ ":" +:+ unit
  ∨ (∃ more, profileTypeID
             = kind +:+ ":" +:+ sample +:+ ":" +:+ unit +:+ ":" +:+ more) →
  querierv1connect.SelectSeries (connectClient c)
    (series_request profileTypeID labelSelector start end_ groupBy step)
  = ok Msg →
  GetSeries c profileTypeID labelSelector start end_ groupBy step
  = Return (Some {|
      SeriesResponse.Series :=
        images image_of_Series (querierv1.SelectSeriesResponse.Series Msg);
      SeriesResponse.Units := NormalizeUnit unit;
      SeriesResponse.Label := sample |}, None).
Proof.
  intros Hkind Hsample Hunit Hid Hcall.
  destruct (components_grammar _ _ _ _ Hkind Hsample Hunit Hid) as [Hl Ht].
  rewrite (GetSeries_ok _ _ _ _ _ _ _ _ Hcall).
  by rewrite (getUnits_token _ _ Ht), index_components, Hl.
Qed.

Lemma GetSeries_identifier_grammar_witness :
  GetSeries sample_service "memory:alloc_objects:count:space:bytes" "{}"
    0%Z 1000%Z None 15%float
  = Return (Some {|
      SeriesResponse.Series := images image_of_Series sample_series;
      SeriesResponse.Units := "short";
      SeriesResponse.Label := "alloc_objects" |}, None).
Proof.
  exact (GetSeries_identifier_grammar sample_service "memory" "alloc_objects"
           "count" "memory:alloc_objects:count:space:bytes" "{}" 0%Z 1000%Z None
           15%float _ eq_refl eq_refl eq_refl
           (or_intror (ex_intro _ "space:bytes" eq_refl)) eq_refl).
Defined.

(** X6. Whatever SeriesResponse GetSeries returns, its Label and its Units
    hold no colon, and its Units are never one of the raw tokens
    "nanoseconds" and "count". *)
Theorem GetSeries_display_strings (c : PyroscopeClient)
    (profileTypeID labelSelector : string) (start end_ : int64)
    (groupBy : slice string) (step : float64)
    (series : SeriesResponse.t) (err : option error) :
  GetSeries c profileTypeID labelSelector start end_ groupBy step
  = Return (Some series, err) →
  colons (SeriesResponse.Label series) = 0
  ∧ colons (SeriesResponse.Units series) = 0
  ∧ SeriesResponse.Units series ≠ "nanoseconds"
  ∧ SeriesResponse.Units series ≠ "count".
Proof.
  destruct (querierv1connect.SelectSeries (connectClient c)
              (series_request profileTypeID labelSelector start end_ groupBy step))
    as [Msg|upstream] eqn:Hcall.
  - rewrite (GetSeries_ok _ _ _ _ _ _ _ _ Hcall).
    destruct (decide (colons profileTypeID < 2)) as [Hshort|Hlong].
    { by rewrite (getUnits_few_colons profileTypeID Hshort). }
    destruct (getUnits_enough_colons profileTypeID) as (token & Ht & Hfree & ->);
      [lia|].
    simpl. rewrite index_components.
    destruct (components profileTypeID !! 1) as [label|] eqn:Hl; [|discriminate].
    simpl. intros [= <- _]. simpl.
    split.
    { apply (split_byte_parts_free ":"%char profileTypeID).
      apply list_elem_of_lookup. by exists 1. }
    split; [by apply NormalizeUnit_free|].
    apply NormalizeUnit_display.
  - by rewrite (GetSeries_failed _ _ _ _ _ _ _ _ Hcall).
Qed.

Lemma GetSeries_display_strings_witness :
  ∃ series,
    GetSeries sample_service "process_cpu:samples:count" "{}" 0%Z 1000%Z None
      15%float = Return (Some series, None)
    ∧ SeriesResponse.Units series = "short"
    ∧ colons (SeriesResponse.Label series) = 0
    ∧ colons (SeriesResponse.Units series) = 0
    ∧ SeriesResponse.Units series ≠ "nanoseconds"
    ∧ SeriesResponse.Units series ≠ "count".
Proof.
  eexists. split; [reflexivity|]. split; [reflexivity|].
  exact (GetSeries_display_strings sample_service "process_cpu:samples:count" "{}"
           0%Z 1000%Z None 15%float _ None eq_refl).
Defined.

(** *** What a returned response is made of *)

Lemma images_no_nil {A B : Type} (f : A → B) (xs : slice A) :
  ∃ filled : list (ptr B),
    images f xs = Some filled
    ∧ length filled = len xs
    ∧ Forall is_Some filled.
Proof.
  eexists. split; [reflexivity|]. split; [apply length_fmap|].
  apply Forall_fmap, Forall_true. intros x. by eexists.
Qed.

(** X7. A SeriesResponse is only ever returned without an error and after
    a successful round trip. Its Series slice is allocated and has one
    non-nil entry per upstream series; the Labels and Points of each entry
    are allocated slices of non-nil pointers, as long as the upstream
    lists, also where the upstream list is nil. *)
Theorem GetSeries_response_shape (c : PyroscopeClient)
    (profileTypeID labelSelector : string) (start end_ : int64)
    (groupBy : slice string) (step : float64)
    (response : SeriesResponse.t) (err : option error) :
  GetSeries c profileTypeID labelSelector start end_ groupBy step
  = Return (Some response, err) →
  err = None
  ∧ ∃ Msg series,
      querierv1connect.SelectSeries (connectClient c)
        (series_request profileTypeID labelSelector start end_ groupBy step)
      = ok Msg
      ∧ SeriesResponse.Series response = Some series
      ∧ Forall2
          (λ (entry : ptr Series.t) (upstream : querierv1.Series.t),
             ∃ s labels points,
               entry = Some s
               ∧ Series.Labels s = Some labels
               ∧ Series.Points s = Some points
               ∧ length labels = len (querierv1.Series.Labels upstream)
               ∧ length points = len (querierv1.Series.Points upstream)
               ∧ Forall is_Some labels
               ∧ Forall is_Some points)
          series (elems (querierv1.SelectSeriesResponse.Series Msg)).
Proof.
  destruct (querierv1connect.SelectSeries (connectClient c)
              (series_request profileTypeID labelSelector start end_ groupBy step))
    as [Msg|upstream] eqn:Hcall.
  - rewrite (GetSeries_ok _ _ _ _ _ _ _ _ Hcall).
    destruct (getUnits profileTypeID) as [units|]; [|discriminate]. simpl.
    destruct (index _ 1) as [label|]; [|discriminate]. simpl.
    intros [= <- <-]. split; [reflexivity|].
    exists Msg. eexists. split; [reflexivity|]. split; [reflexivity|].
    apply Forall2_fmap_l, Forall_Forall2_diag, Forall_true.
    intros upstream. simpl.
    destruct (images_no_nil image_of_LabelPair (querierv1.Series.Labels upstream))
      as (labels & Hlabels & Hll & Hln).
    destruct (images_no_nil image_of_Point (querierv1.Series.Points upstream))
      as (points & Hpoints & Hpl & Hpn).
    exists (image_of_Series upstream), labels, points.
    by repeat split.
  - by rewrite (GetSeries_failed _ _ _ _ _ _ _ _ Hcall).
Qed.

Lemma GetSeries_response_shape_witness :
  ∃ response series,
    GetSeries sample_service "process_cpu:cpu:nanoseconds" "{}" 0%Z 1000%Z None
      15%float = Return (Some response, None)
    ∧ SeriesResponse.Series response = Some series
    ∧ length series = 2.
Proof.
  destruct (GetSeries_response_shape sample_service "process_cpu:cpu:nanoseconds"
              "{}" 0%Z 1000%Z None 15%float _ None eq_refl)
    as (_ & Msg & series & Hcall & Hseries & Hshape).
  eexists. exists series. split; [reflexivity|]. split; [exact Hseries|].
  injection Hcall as <-.
  exact (Forall2_length _ _ _ Hshape).
Defined.

(** X8. A ProfileResponse is only ever returned without an error, for an
    identifier of at least two colons, and after a round trip that gave a
    flamegraph. It always carries a Flamebearer; the Levels slice of this
    Flamebearer is allocated with one non-nil Level per upstream level,
    whereas Names and the Values of each Level are the upstream slices
    themselves, nil where the upstream slice is nil. *)
Theorem GetProfile_response_shape (c : PyroscopeClient)
    (profileTypeID labelSelector : string) (start end_ : int64)
    (maxNodes : ptr int64) (response : ProfileResponse.t) (err : option error) :
  GetProfile c profileTypeID labelSelector start end_ maxNodes
  = Return (Some response, err) →
  err = None
  ∧ (2 ≤ colons profileTypeID)%nat
  ∧ ∃ Msg Flamegraph flamebearer levels,
      querierv1connect.SelectMergeStacktraces (connectClient c)
        (profile_request profileTypeID labelSelector start end_ maxNodes)
      = ok Msg
      ∧ querierv1.SelectMergeStacktracesResponse.Flamegraph Msg = Some Flamegraph
      ∧ ProfileResponse.Flamebearer response = Some flamebearer
      ∧ Flamebearer.Names flamebearer = querierv1.FlameGraph.Names Flamegraph
      ∧ Flamebearer.Total flamebearer = querierv1.FlameGraph.Total Flamegraph
      ∧ Flamebearer.MaxSelf flamebearer = querierv1.FlameGraph.MaxSelf Flamegraph
      ∧ Flamebearer.Levels flamebearer = Some levels
      ∧ Forall2
          (λ (entry : ptr Level.t) (upstream : querierv1.Level.t),
             ∃ level,
               entry = Some level
               ∧ Level.Values level = querierv1.Level.Values upstream)
          levels (elems (querierv1.FlameGraph.Levels Flamegraph)).
Proof.
  destruct (querierv1connect.SelectMergeStacktraces (connectClient c)
              (profile_request profileTypeID labelSelector start end_ maxNodes))
    as [Msg|upstream] eqn:Hcall.
  - destruct (querierv1.SelectMergeStacktracesResponse.Flamegraph Msg)
      as [Flamegraph|] eqn:Hfg.
    + rewrite (GetProfile_ok _ _ _ _ _ _ _ _ Hcall Hfg).
      destruct (decide (colons profileTypeID < 2)) as [Hshort|Hlong].
      { by rewrite (getUnits_few_colons profileTypeID Hshort). }
      destruct (getUnits profileTypeID) as [units|]; [|discriminate]. simpl.
      intros [= <- <-]. split; [reflexivity|]. split; [lia|].
      exists Msg, Flamegraph. eexists. eexists.
      repeat (split; [reflexivity|]). split; [exact Hfg|].
      repeat (split; [reflexivity|]).
      apply Forall2_fmap_l, Forall_Forall2_diag, Forall_true.
      intros upstream. by eexists.
    + by rewrite (GetProfile_no_flamegraph _ _ _ _ _ _ _ Hcall Hfg).
  - by rewrite (GetProfile_failed _ _ _ _ _ _ _ Hcall).
Qed.

Lemma GetProfile_response_shape_witness :
  ∃ response flamebearer,
    GetProfile sample_service "memory:inuse_space:bytes" "{}" 0%Z 1000%Z None
    = Return (Some response, None)
    ∧ ProfileResponse.Flamebearer response = Some flamebearer
    ∧ Flamebearer.Total flamebearer = 10%Z.
Proof.
  destruct (GetProfile_response_shape sample_service "memory:inuse_space:bytes"
              "{}" 0%Z 1000%Z None _ None eq_refl)
    as (_ & _ & Msg & Flamegraph & flamebearer & levels
        & Hcall & Hfg & Hfb & _ & Htotal & _).
  eexists. exists flamebearer. split; [reflexivity|]. split; [exact Hfb|].
  injection Hcall as <-. injection Hfg as <-. exact Htotal.
Defined.

(** *** Label names *)

Lemma filter_public_sublist (names : list string) :
  List.filter (λ label, negb (isPrivateLabel label)) names `sublist_of` names.
Proof.
  induction names as [|name names IH]; simpl; [constructor|].
  destruct (negb (isPrivateLabel name)); by constructor.
Qed.

Lemma filter_public_Forall (names : list string) :
  Forall (λ label, isPrivateLabel label = false)
    (List.filter (λ label, negb (isPrivateLabel label)) names).
Proof.
  apply Forall_forall. intros label [_ Hkept]%list_elem_of_In%List.filter_In.
  by apply negb_true_iff.
Qed.

Lemma filter_public_all (names : list string) :
  Forall (λ label, isPrivateLabel label = false) names →
  List.filter (λ label, negb (isPrivateLabel label)) names = names.
Proof.
  induction 1 as [|name names Hname _ IH]; simpl; [reflexivity|].
  by rewrite Hname, IH.
Qed.

Lemma LabelNames_returned (c : PyroscopeClient) (names : slice string) :
  LabelNames c = Return (names, None) →
  ∃ Msg,
    querierv1connect.LabelNames (connectClient c) querierv1.LabelNamesRequest.mk
    = ok Msg
    ∧ names = match List.filter (λ label, negb (isPrivateLabel label))
                      (elems (querierv1.LabelNamesResponse.Names Msg)) with
              | [] => None
              | kept => Some kept
              end.
Proof.
  destruct (querierv1connect.LabelNames (connectClient c)
              querierv1.LabelNamesRequest.mk) as [Msg|upstream] eqn:Hcall.
  - rewrite (LabelNames_ok _ _ Hcall). intros [= <-]. by exists Msg.
  - unfold LabelNames. rewrite Hcall. discriminate.
Qed.

(** X9. When LabelNames returns without an error, the round trip had
    succeeded and the names returned form a sublist of the upstream names
    none of which is private; the slice is never allocated and empty: it
    is nil as soon as nothing is kept. *)
Theorem LabelNames_result_shape (c : PyroscopeClient) (names : slice string) :
  LabelNames c = Return (names, None) →
  ∃ Msg,
    querierv1connect.LabelNames (connectClient c) querierv1.LabelNamesRequest.mk
    = ok Msg
    ∧ elems names `sublist_of` elems (querierv1.LabelNamesResponse.Names Msg)
    ∧ Forall (λ label, isPrivateLabel label = false) (elems names)
    ∧ names ≠ Some [].
Proof.
  intros (Msg & Hcall & ->)%LabelNames_returned. exists Msg.
  split; [exact Hcall|].
  pose proof (filter_public_sublist (elems (querierv1.LabelNamesResponse.Names Msg)))
    as Hsub.
  pose proof (filter_public_Forall (elems (querierv1.LabelNamesResponse.Names Msg)))
    as Hpublic.
  destruct (List.filter _ _) as [|name kept]; simpl.
  - split; [exact Hsub|]. split; [exact Hpublic|]. discriminate.
  - split; [exact Hsub|]. split; [exact Hpublic|]. discriminate.
Qed.

Lemma LabelNames_result_shape_witness :
  LabelNames sample_service = Return (Some ["job"; "instance"], None)
  ∧ ∃ Msg,
      querierv1connect.LabelNames (connectClient sample_service)
        querierv1.LabelNamesRequest.mk = ok Msg
      ∧ elems (Some ["job"; "instance"])
          `sublist_of` elems (querierv1.LabelNamesResponse.Names Msg)
      ∧ Forall (λ label, isPrivateLabel label = false)
          (elems (Some ["job"; "instance"]))
      ∧ Some ["job"; "instance"] ≠ Some [].
Proof.
  split; [reflexivity|].
  exact (LabelNames_result_shape sample_service (Some ["job"; "instance"]) eq_refl).
Defined.

(** X10. Filtering is stable: a service whose upstream names are the
    names LabelNames returned once gets exactly these names back, the nil
    slice included. *)
Theorem LabelNames_stable (c c' : PyroscopeClient) (names : slice string) :
  LabelNames c = Return (names, None) →
  querierv1connect.LabelNames (connectClient c') querierv1.LabelNamesRequest.mk
  = ok (querierv1.LabelNamesResponse.mk names) →
  LabelNames c' = Return (names, None).
Proof.
  intros (Msg & _ & Hnames)%LabelNames_returned Hcall'.
  rewrite (LabelNames_ok _ _ Hcall').
  change (elems (querierv1.LabelNamesResponse.Names
                   (querierv1.LabelNamesResponse.mk names))) with (elems names).
  pose proof (filter_public_Forall (elems (querierv1.LabelNamesResponse.Names Msg)))
    as Hpublic.
  destruct (List.filter _ (elems (querierv1.LabelNamesResponse.Names Msg)))
    as [|name kept]; subst names; [reflexivity|].
  change (elems (Some (name :: kept))) with (name :: kept).
  by rewrite (filter_public_all _ Hpublic).
Qed.

Lemma LabelNames_stable_witness :
  LabelNames (table_service None None None (Some ["job"; "instance"]) None)
  = Return (Some ["job"; "instance"], None).
Proof.
  exact (LabelNames_stable sample_service
           (table_service None None None (Some ["job"; "instance"]) None)
           (Some ["job"; "instance"]) eq_refl eq_refl).
Defined.

(** X11. The reserved prefix is two underscores and nothing less: a label
    of fewer than two bytes is never private, a label starting with one
    underscore followed by a byte other than an underscore is not private, and a private
    label stays private however it is continued. *)
Theorem isPrivateLabel_edges (label : string) :
  (String.length label < 2 → isPrivateLabel label = false)
  ∧ (∀ b rest, b ≠ "_"%char →
       isPrivateLabel (String "_" (String b rest)) = false)
  ∧ (isPrivateLabel label = true →
     ∀ suffix, isPrivateLabel (label +:+ suffix) = true).
Proof.
  split; [|split].
  - intros Hshort. apply not_true_iff_false.
    intros [rest ->]%isPrivateLabel_prefix. simpl in Hshort. lia.
  - intros b rest Hb. apply not_true_iff_false.
    intros [rest' Heq]%isPrivateLabel_prefix.
    injection Heq as -> _. by destruct Hb.
  - intros [rest ->]%isPrivateLabel_prefix suffix.
    apply isPrivateLabel_prefix. by exists (rest +:+ suffix).
Qed.

Lemma isPrivateLabel_edges_witness :
  String.length "_" < 2
  ∧ isPrivateLabel "_" = false
  ∧ isPrivateLabel "__name__" = true
  ∧ isPrivateLabel ("__name__" +:+ "_total") = true.
Proof.
  split; [vm_compute; lia|]. split.
  - apply (proj1 (isPrivateLabel_edges "_")). vm_compute. lia.
  - split; [reflexivity|].
    exact (proj2 (proj2 (isPrivateLabel_edges "__name__")) eq_refl "_total").
Defined.

(** *** Panics and profile types *)

Lemma length_concat (head tail : string) :
  String.length (head +:+ tail) = String.length head + String.length tail.
Proof.
  induction head as [|b head IH]; simpl; [reflexivity|]. by rewrite IH.
Qed.

Lemma prefix_concat (head tail : string) :
  String.prefix head (head +:+ tail) = true.
Proof.
  apply String.prefix_correct.
  induction head as [|b head IH]; simpl.
  - by destruct tail.
  - by rewrite IH.
Qed.

(** X12. ProfileTypes, LabelNames and LabelValues never panic: whatever
    the service answers, each returns its pair of result and error; every
    indexed store of ProfileTypes falls inside the slice it made. *)
Theorem no_panic_outside_identifiers (c : PyroscopeClient) (label : string) :
  (∃ pTypes err, ProfileTypes c = Return (pTypes, err))
  ∧ (∃ names err, LabelNames c = Return (names, err))
  ∧ (∃ values err, LabelValues c label = Return (values, err)).
Proof.
  split; [|split].
  - destruct (querierv1connect.ProfileTypes (connectClient c)
                querierv1.ProfileTypesRequest.mk) as [Msg|upstream] eqn:Hcall.
    + eexists. eexists. exact (ProfileTypes_ok _ _ Hcall).
    + exists None, (Some upstream). unfold ProfileTypes. by rewrite Hcall.
  - destruct (querierv1connect.LabelNames (connectClient c)
                querierv1.LabelNamesRequest.mk) as [Msg|upstream] eqn:Hcall.
    + eexists. eexists. exact (LabelNames_ok _ _ Hcall).
    + eexists. eexists. unfold LabelNames. by rewrite Hcall.
  - unfold LabelValues.
    destruct (querierv1connect.LabelValues _ _); by eexists; eexists.
Qed.

(** X13. When ProfileTypes returns a list, it returns no error, the
    round trip had succeeded, and the list has one non-nil entry per
    upstream type, in order, each with the ID of its upstream type and a
    Label that begins with the upstream Name and is three bytes longer
    than Name and SampleType together. *)
Theorem ProfileTypes_result_shape (c : PyroscopeClient)
    (pTypes : list (ptr ProfileType.t)) (err : option error) :
  ProfileTypes c = Return (Some pTypes, err) →
  err = None
  ∧ ∃ Msg,
      querierv1connect.ProfileTypes (connectClient c)
        querierv1.ProfileTypesRequest.mk = ok Msg
      ∧ Forall2
          (λ (entry : ptr ProfileType.t) (upstream : querierv1.ProfileType.t),
             ∃ pType,
               entry = Some pType
               ∧ ProfileType.ID pType = querierv1.ProfileType.ID upstream
               ∧ String.prefix (querierv1.ProfileType.Name upstream)
                   (ProfileType.Label pType) = true
               ∧ String.length (ProfileType.Label pType)
                 = String.length (querierv1.ProfileType.Name upstream) + 3
                   + String.length (querierv1.ProfileType.SampleType upstream))
          pTypes (elems (querierv1.ProfileTypesResponse.ProfileTypes Msg)).
Proof.
  destruct (querierv1connect.ProfileTypes (connectClient c)
              querierv1.ProfileTypesRequest.mk) as [Msg|upstream] eqn:Hcall.
  - rewrite (ProfileTypes_ok _ _ Hcall). intros [= <- <-].
    split; [reflexivity|]. exists Msg. split; [reflexivity|].
    apply Forall2_fmap_l, Forall_Forall2_diag, Forall_true.
    intros upstream. exists (image_of_ProfileType upstream).
    split; [reflexivity|]. split; [reflexivity|]. simpl. split.
    + apply prefix_concat.
    + rewrite !length_concat. simpl. lia.
  - unfold ProfileTypes. rewrite Hcall. discriminate.
Qed.

Lemma ProfileTypes_result_shape_witness :
  ∃ pTypes,
    ProfileTypes sample_service = Return (Some pTypes, None)
    ∧ length pTypes = 2.
Proof.
  destruct (ProfileTypes_result_shape sample_service _ None eq_refl)
    as (_ & Msg & Hcall & Hshape).
  eexists. split; [reflexivity|].
  injection Hcall as <-.
  exact (Forall2_length _ _ _ Hshape).
Defined.

(** *** One call per operation *)


